(** * SNIP20 token adapter (contractlib/snip20lib.py)

    A shallow embedding of the [SNIP20] class: the Python values it
    handles, the two library functions it applies to them ([str] and
    [json.dumps]), its constructor and its six methods, written as
    programs over the calls they make to their collaborators
    ([secretlib.execute_contract], [secretlib.query_contract],
    [json.loads] and the base class constructor [Contract.__init__]). *)

From Stdlib Require Import ZArith String Ascii List Bool DecimalString DecimalPos DecimalZ.
From stdpp Require Import gmap strings.

Local Open Scope string_scope.
Local Open Scope Z_scope.

Set Warnings "-register-all".

(** ** Python values

    The values that reach the adapter and can cross the JSON boundary:
    [None], booleans, integers, strings, lists and dictionaries with
    string keys.  A Python [str] is a sequence of code points; a Rocq
    [string] is a sequence of characters below 256, so the strings here
    are the Python strings of code points below 256 (Latin-1).  Floats
    and objects that [json.dumps] rejects lie outside this type.  A
    dictionary keeps its items in insertion order, as Python's does. *)

Inductive pyval : Type :=
| PNone
| PBool (b : bool)
| PInt (z : Z)
| PStr (s : string)
| PList (l : list pyval)
| PDict (d : list (string * pyval)).

(** Exceptions.  [KeyError], [TypeError] and [JSONDecodeError] are the
    errors of a value that has not the expected shape; [AttributeError]
    is a missing attribute of the instance; [Raised] is whatever else a
    collaborator raises. *)

Inductive exn : Type :=
| KeyError (key : string)
| TypeError
| JSONDecodeError
| AttributeError (name : string)
| Raised (payload : pyval).

Inductive outcome (A : Type) : Type :=
| Ok (a : A)
| Err (e : exn).

Arguments Ok {A} a.
Arguments Err {A} e.

(** Sequencing of fallible steps: the first exception ends the chain. *)
Definition and_then {A B : Type} (r : outcome A) (f : A -> outcome B) : outcome B :=
  match r with
  | Ok a => f a
  | Err e => Err e
  end.

Definition structural (e : exn) : bool :=
  match e with
  | KeyError _ | TypeError | JSONDecodeError => true
  | AttributeError _ | Raised _ => false
  end.

(** ** Text helpers *)

Definition dquote : ascii := "034"%char.
Definition squote : ascii := "039"%char.
Definition backslash : ascii := "092"%char.

Definition chr (a : ascii) : string := String a EmptyString.

(** [sep.join(parts)] *)
Fixpoint join (sep : string) (parts : list string) : string :=
  match parts with
  | nil => EmptyString
  | p :: nil => p
  | p :: rest => p +:+ sep +:+ join sep rest
  end.

Definition hex_digit (n : N) : ascii :=
  if (n <? 10)%N then ascii_of_N (48 + n) else ascii_of_N (87 + n).

(** [format(n, '02x')] for a code point below 256 *)
Definition hex2 (a : ascii) : string :=
  let n := N_of_ascii a in
  String (hex_digit (n / 16)) (String (hex_digit (n mod 16)) EmptyString).

Fixpoint contains (c : ascii) (s : string) : bool :=
  match s with
  | EmptyString => false
  | String a r => Ascii.eqb a c || contains c r
  end.

(** [int.__repr__]: decimal digits, a minus sign for negatives. *)
Definition int_repr (z : Z) : string := NilZero.string_of_int (Z.to_int z).

(** ** [str] and [repr] *)

(** The characters [repr] writes as they are: ASCII 0x20..0x7e, and the
    printable Latin-1 characters (0xa1..0xff except the soft hyphen
    0xad). *)
Definition printable (a : ascii) : bool :=
  let n := N_of_ascii a in
  ((32 <=? n) && (n <? 127))%N || ((161 <=? n) && negb (n =? 173))%N.

Definition repr_char (quote a : ascii) : string :=
  if Ascii.eqb a quote || Ascii.eqb a backslash then String backslash (chr a)
  else if Ascii.eqb a "009" then String backslash "t"
  else if Ascii.eqb a "010" then String backslash "n"
  else if Ascii.eqb a "013" then String backslash "r"
  else if printable a then chr a
  else String backslash ("x" +:+ hex2 a).

Fixpoint repr_chars (quote : ascii) (s : string) : string :=
  match s with
  | EmptyString => EmptyString
  | String a r => repr_char quote a +:+ repr_chars quote r
  end.

(** [repr] of a string: single quotes, unless the string has a single
    quote and no double quote. *)
Definition str_repr (s : string) : string :=
  let quote := if contains squote s && negb (contains dquote s) then dquote else squote in
  String quote (repr_chars quote s +:+ chr quote).

Fixpoint repr (v : pyval) : string :=
  match v with
  | PNone => "None"
  | PBool true => "True"
  | PBool false => "False"
  | PInt z => int_repr z
  | PStr s => str_repr s
  | PList l => "[" +:+ join ", " (map repr l) +:+ "]"
  | PDict d =>
      "{" +:+ join ", " (map (fun kv => str_repr (fst kv) +:+ ": " +:+ repr (snd kv)) d) +:+ "}"
  end.

(** [str(v)]: a string is itself, everything else is its [repr]. *)
Definition str (v : pyval) : string :=
  match v with
  | PStr s => s
  | _ => repr v
  end.

(** ** The [json] module *)

Module json.

(** One character of a string under [ensure_ascii=True] (the default):
    the short escapes, the characters from space to tilde as they are,
    everything else as a [\u] escape of four lowercase hex digits. *)
Definition escape_char (a : ascii) : string :=
  if Ascii.eqb a backslash then String backslash (chr backslash)
  else if Ascii.eqb a dquote then String backslash (chr dquote)
  else if Ascii.eqb a "008" then String backslash "b"
  else if Ascii.eqb a "012" then String backslash "f"
  else if Ascii.eqb a "010" then String backslash "n"
  else if Ascii.eqb a "013" then String backslash "r"
  else if Ascii.eqb a "009" then String backslash "t"
  else
    let n := N_of_ascii a in
    if ((32 <=? n) && (n <? 127))%N then chr a
    else String backslash ("u00" +:+ hex2 a).

Fixpoint escape (s : string) : string :=
  match s with
  | EmptyString => EmptyString
  | String a r => escape_char a +:+ escape r
  end.

Definition encode_basestring_ascii (s : string) : string :=
  String dquote (escape s +:+ chr dquote).

(** [json.dumps(v)] with the default separators [", "] and [": "]. *)
Fixpoint dumps (v : pyval) : string :=
  match v with
  | PNone => "null"
  | PBool true => "true"
  | PBool false => "false"
  | PInt z => int_repr z
  | PStr s => encode_basestring_ascii s
  | PList l => "[" +:+ join ", " (map dumps l) +:+ "]"
  | PDict d =>
      "{" +:+ join ", "
        (map (fun kv => encode_basestring_ascii (fst kv) +:+ ": " +:+ dumps (snd kv)) d)
      +:+ "}"
  end.

End json.

(** [q s] is [s] between double quotes. *)
Definition q (s : string) : string := String dquote (s +:+ chr dquote).

(** ** Subscription and instances *)

(** [d[key]] on the items of a dictionary. *)
Fixpoint assoc (key : string) (d : list (string * pyval)) : option pyval :=
  match d with
  | nil => None
  | (k, v) :: rest => if String.eqb k key then Some v else assoc key rest
  end.

(** [v[key]] for a string [key]: a dictionary gives the value stored
    under the key or raises [KeyError]; no other value of this type can
    be subscripted by a string, which is a [TypeError]. *)
Definition getitem (v : pyval) (key : string) : outcome pyval :=
  match v with
  | PDict d =>
      match assoc key d with
      | Some x => Ok x
      | None => Err (KeyError key)
      end
  | _ => Err TypeError
  end.

(** An instance is its attribute dictionary. *)
Abbreviation object := (gmap string pyval).

(** ** The collaborators *)

Module secretlib.

(** A call of one of the two functions of the client library, with its
    positional arguments.  [amount] is the optional fifth argument of
    [execute_contract]. *)
Inductive call : Type :=
| execute_contract (contract msg user backend : pyval) (amount : option pyval)
| query_contract (contract msg : pyval).

Definition msg_of (c : call) : pyval :=
  match c with
  | execute_contract _ msg _ _ _ => msg
  | query_contract _ msg => msg
  end.

End secretlib.

Module Contract.

(** The arguments [SNIP20.__init__] hands to [Contract.__init__]. *)
Record init_args : Type := {
  contract : pyval;
  initMsg : pyval;
  label : pyval;
  admin : pyval;
  uploader : pyval;
  gas : pyval;
  backend : pyval
}.

End Contract.

(** ** Programs

    A method is a program: it returns, raises, reads or writes an
    attribute of [self], or calls a collaborator and goes on with the
    answer. *)

Inductive prog (A : Type) : Type :=
| Ret (a : A)
| Raise (e : exn)
| GetAttr (name : string) (k : pyval -> prog A)
| SetAttr (name : string) (v : pyval) (k : prog A)
| Secretlib (c : secretlib.call) (k : pyval -> prog A)
| JsonLoads (s : pyval) (k : pyval -> prog A)
| SuperInit (args : Contract.init_args) (k : prog A).

Arguments Ret {A} a.
Arguments Raise {A} e.
Arguments GetAttr {A} name k.
Arguments SetAttr {A} name v k.
Arguments Secretlib {A} c k.
Arguments JsonLoads {A} s k.
Arguments SuperInit {A} args k.

Fixpoint bind {A B : Type} (p : prog A) (f : A -> prog B) : prog B :=
  match p with
  | Ret a => f a
  | Raise e => Raise e
  | GetAttr n k => GetAttr n (fun v => bind (k v) f)
  | SetAttr n v k => SetAttr n v (bind k f)
  | Secretlib c k => Secretlib c (fun v => bind (k v) f)
  | JsonLoads s k => JsonLoads s (fun v => bind (k v) f)
  | SuperInit a k => SuperInit a (bind k f)
  end.

#[global] Instance prog_ret : MRet prog := @Ret.
#[global] Instance prog_bind : MBind prog := fun A B f p => bind p f.

Definition getattr (name : string) : prog pyval := GetAttr name Ret.
Definition setattr (name : string) (v : pyval) : prog unit := SetAttr name v (Ret tt).
Definition secretlib_call (c : secretlib.call) : prog pyval := Secretlib c Ret.
Definition json_loads (s : pyval) : prog pyval := JsonLoads s Ret.
Definition super_init (a : Contract.init_args) : prog unit := SuperInit a (Ret tt).

Definition lift {A : Type} (r : outcome A) : prog A :=
  match r with
  | Ok a => Ret a
  | Err e => Raise e
  end.

(** ** Running a program

    The collaborators are given by an environment over a type of world
    states (the chain, the node, the files of the client).  The two
    functions of [secretlib] get the values of their arguments and the
    world; [json.loads] is a function of its argument; the base class
    constructor gets [self] too, whose attributes it sets. *)

Record env (World : Type) : Type := {
  secretlib_handler : secretlib.call -> World -> outcome pyval * World;
  loads : pyval -> outcome pyval;
  Contract_init : Contract.init_args -> object -> World -> outcome unit * object * World
}.

Arguments secretlib_handler {World} e c w.
Arguments loads {World} e s.
Arguments Contract_init {World} e a o w.

(** What a run leaves: the result or the exception that reached the
    caller, the instance, the world, and the calls made to [secretlib]
    in order. *)
Record final (World A : Type) : Type := {
  result : outcome A;
  self : object;
  world : World;
  trace : list secretlib.call
}.

Arguments result {World A} f.
Arguments self {World A} f.
Arguments world {World A} f.
Arguments trace {World A} f.

Definition logged {World A : Type} (c : secretlib.call) (f : final World A) : final World A :=
  {| result := result f; self := self f; world := world f; trace := c :: trace f |}.

Fixpoint run {World A : Type} (E : env World) (p : prog A) (o : object) (w : World)
  : final World A :=
  match p with
  | Ret a => {| result := Ok a; self := o; world := w; trace := nil |}
  | Raise e => {| result := Err e; self := o; world := w; trace := nil |}
  | GetAttr n k =>
      match o !! n with
      | Some v => run E (k v) o w
      | None => {| result := Err (AttributeError n); self := o; world := w; trace := nil |}
      end
  | SetAttr n v k => run E k (<[n := v]> o) w
  | Secretlib c k =>
      match secretlib_handler E c w with
      | (Ok v, w') => logged c (run E (k v) o w')
      | (Err e, w') => {| result := Err e; self := o; world := w'; trace := c :: nil |}
      end
  | JsonLoads s k =>
      match loads E s with
      | Ok v => run E (k v) o w
      | Err e => {| result := Err e; self := o; world := w; trace := nil |}
      end
  | SuperInit a k =>
      match Contract_init E a o w with
      | (Ok _, o', w') => run E k o' w'
      | (Err e, o', w') => {| result := Err e; self := o'; world := w'; trace := nil |}
      end
  end.

(** ** The class *)

Module SNIP20.

(** The parameters of the constructor. *)
Record params : Type := {
  label : pyval;
  name : pyval;
  symbol : pyval;
  decimals : pyval;
  seed : pyval;
  public_total_supply : pyval;
  enable_deposit : pyval;
  enable_redeem : pyval;
  enable_mint : pyval;
  enable_burn : pyval;
  contract : pyval;
  admin : pyval;
  uploader : pyval;
  gas : pyval;
  backend : pyval
}.

(** [SNIP20(label)]: every parameter but [label] has a default. *)
Definition defaults (label : pyval) : params := {|
  label := label;
  name := PStr "token";
  symbol := PStr "TKN";
  decimals := PInt 3;
  seed := PStr "cGFzc3dvcmQ=";
  public_total_supply := PBool false;
  enable_deposit := PBool false;
  enable_redeem := PBool false;
  enable_mint := PBool false;
  enable_burn := PBool false;
  contract := PStr "snip20.wasm.gz";
  admin := PStr "a";
  uploader := PStr "a";
  gas := PStr "10000000";
  backend := PStr "test"
|}.

(** The dictionary [__init__] serialises. *)
Definition init_payload (p : params) : pyval :=
  PDict (("name", name p) :: ("symbol", symbol p) :: ("decimals", decimals p)
         :: ("prng_seed", seed p)
         :: ("config",
             PDict (("public_total_supply", public_total_supply p)
                    :: ("enable_deposit", enable_deposit p)
                    :: ("enable_redeem", enable_redeem p)
                    :: ("enable_mint", enable_mint p)
                    :: ("enable_burn", enable_burn p) :: nil))
         :: nil).

Definition initMsg (p : params) : string := json.dumps (init_payload p).

Definition __init__ (p : params) : prog unit :=
  setattr "view_key" (PStr EmptyString);;
  let initMsg := initMsg p in
  super_init {| Contract.contract := contract p;
                Contract.initMsg := PStr initMsg;
                Contract.label := label p;
                Contract.admin := admin p;
                Contract.uploader := uploader p;
                Contract.gas := gas p;
                Contract.backend := backend p |}.

Definition set_minters (accounts : pyval) : prog pyval :=
  let msg := json.dumps (PDict (("set_minters", PDict (("minters", accounts) :: nil)) :: nil)) in
  address ← getattr "address";
  admin ← getattr "admin";
  backend ← getattr "backend";
  secretlib_call (secretlib.execute_contract address (PStr msg) admin backend None).

Definition deposit (account amount : pyval) : prog pyval :=
  let msg := json.dumps (PDict (("deposit", PDict nil) :: nil)) in
  address ← getattr "address";
  backend ← getattr "backend";
  secretlib_call (secretlib.execute_contract address (PStr msg) account backend (Some amount)).

Definition mint (recipient amount : pyval) : prog pyval :=
  let msg :=
    json.dumps
      (PDict (("mint", PDict (("recipient", recipient) :: ("amount", PStr (str amount)) :: nil))
              :: nil)) in
  address ← getattr "address";
  admin ← getattr "admin";
  backend ← getattr "backend";
  secretlib_call (secretlib.execute_contract address (PStr msg) admin backend None).

Definition send (account recipient amount : pyval) : prog pyval :=
  let msg :=
    json.dumps
      (PDict (("send", PDict (("recipient", recipient) :: ("amount", PStr (str amount)) :: nil))
              :: nil)) in
  address ← getattr "address";
  backend ← getattr "backend";
  secretlib_call (secretlib.execute_contract address (PStr msg) account backend None).

Definition set_view_key (account entropy : pyval) : prog pyval :=
  let msg :=
    json.dumps (PDict (("create_viewing_key", PDict (("entropy", entropy) :: nil)) :: nil)) in
  address ← getattr "address";
  backend ← getattr "backend";
  response ← secretlib_call (secretlib.execute_contract address (PStr msg) account backend None);
  output ← lift (getitem response "output_data_as_string");
  parsed ← json_loads output;
  created ← lift (getitem parsed "create_viewing_key");
  lift (getitem created "key").

Definition get_balance (address password : pyval) : prog pyval :=
  let msg :=
    json.dumps (PDict (("balance", PDict (("key", password) :: ("address", address) :: nil))
                       :: nil)) in
  self_address ← getattr "address";
  response ← secretlib_call (secretlib.query_contract self_address (PStr msg));
  balance ← lift (getitem response "balance");
  lift (getitem balance "amount").

(** A call of one of the six methods with its arguments. *)
Inductive method : Type :=
| call_set_minters (accounts : pyval)
| call_deposit (account amount : pyval)
| call_mint (recipient amount : pyval)
| call_send (account recipient amount : pyval)
| call_set_view_key (account entropy : pyval)
| call_get_balance (address password : pyval).

Definition invoke (m : method) : prog pyval :=
  match m with
  | call_set_minters accounts => set_minters accounts
  | call_deposit account amount => deposit account amount
  | call_mint recipient amount => mint recipient amount
  | call_send account recipient amount => send account recipient amount
  | call_set_view_key account entropy => set_view_key account entropy
  | call_get_balance address password => get_balance address password
  end.

(** The operation a method asks of the contract. *)
Definition operation (m : method) : string :=
  match m with
  | call_set_minters _ => "set_minters"
  | call_deposit _ _ => "deposit"
  | call_mint _ _ => "mint"
  | call_send _ _ _ => "send"
  | call_set_view_key _ _ => "create_viewing_key"
  | call_get_balance _ _ => "balance"
  end.

End SNIP20.

(** ** Scripts and a test environment *)

(** A caller that invokes methods one after the other on the same
    instance, going on after an exception (as a test script that catches
    it would). *)
Fixpoint run_all {World : Type} (E : env World) (ms : list SNIP20.method)
  (o : object) (w : World) : object * World :=
  match ms with
  | nil => (o, w)
  | m :: rest =>
      let f := run E (SNIP20.invoke m) o w in
      run_all E rest (self f) (world f)
  end.

(** A program that writes no attribute of [self]: no assignment and no
    call of the base class constructor. *)
Fixpoint read_only {A : Type} (p : prog A) : Prop :=
  match p with
  | Ret _ | Raise _ => True
  | GetAttr _ k | Secretlib _ k | JsonLoads _ k => forall v, read_only (k v)
  | SetAttr _ _ _ | SuperInit _ _ => False
  end.

(** A request in the envelope of operation [op]: one top-level key, an
    object of named parameters under it. *)
Definition envelope (op : string) (c : secretlib.call) : Prop :=
  exists parameters : list (string * pyval),
    secretlib.msg_of c = PStr (json.dumps (PDict ((op, PDict parameters) :: nil))).

(** A small environment to run the class in.  The world counts the
    transactions executed; every execution answers with the same output,
    every query with a balance of 100; the decoder knows that one output;
    the base class constructor records where the contract lives and who
    administers it. *)
Module Demo.

Definition output : string := "<viewing key reply>".

Definition handler (c : secretlib.call) (w : nat) : outcome pyval * nat :=
  match c with
  | secretlib.execute_contract _ _ _ _ _ =>
      (Ok (PDict (("output_data_as_string", PStr output) :: nil)), S w)
  | secretlib.query_contract _ _ =>
      (Ok (PDict (("balance", PDict (("amount", PStr "100") :: nil)) :: nil)), w)
  end.

Definition decode (s : pyval) : outcome pyval :=
  match s with
  | PStr t =>
      if String.eqb t output
      then Ok (PDict (("create_viewing_key", PDict (("key", PStr "api_key_1") :: nil)) :: nil))
      else Err JSONDecodeError
  | _ => Err TypeError
  end.

Definition deploy (a : Contract.init_args) (o : object) (w : nat)
  : outcome unit * object * nat :=
  (Ok tt,
   <["backend" := Contract.backend a]>
     (<["admin" := Contract.admin a]> (<["address" := PStr "secret1contract"]> o)),
   S w).

Definition E : env nat :=
  {| secretlib_handler := handler; loads := decode; Contract_init := deploy |}.

(** The parameters of [SNIP20(label, gas='250000', backend='mainnet')]. *)
Definition mainnet (label : pyval) : SNIP20.params := {|
  SNIP20.label := label;
  SNIP20.name := PStr "token";
  SNIP20.symbol := PStr "TKN";
  SNIP20.decimals := PInt 3;
  SNIP20.seed := PStr "cGFzc3dvcmQ=";
  SNIP20.public_total_supply := PBool false;
  SNIP20.enable_deposit := PBool false;
  SNIP20.enable_redeem := PBool false;
  SNIP20.enable_mint := PBool false;
  SNIP20.enable_burn := PBool false;
  SNIP20.contract := PStr "snip20.wasm.gz";
  SNIP20.admin := PStr "a";
  SNIP20.uploader := PStr "a";
  SNIP20.gas := PStr "250000";
  SNIP20.backend := PStr "mainnet"
|}.

(** The instance [SNIP20("demo")] in a fresh world. *)
Definition token : object := self (run E (SNIP20.__init__ (SNIP20.defaults (PStr "demo"))) ∅ O).

End Demo.

(** ** Reading the text back

    What is needed to tell two values apart from their JSON text: the
    inverse of [json.escape_char], the classes of first characters, and
    an induction principle for values that goes through lists and
    dictionaries. *)

Definition unhex (c : ascii) : option N :=
  let n := N_of_ascii c in
  if ((48 <=? n) && (n <=? 57))%N then Some (n - 48)%N
  else if ((97 <=? n) && (n <=? 102))%N then Some (n - 87)%N
  else None.

(** Read one character of a JSON string: [None] at the closing quote
    and on text no encoder writes. *)
Definition scan_char (s : string) : option (ascii * string) :=
  match s with
  | EmptyString => None
  | String c r =>
      if Ascii.eqb c dquote then None
      else if Ascii.eqb c backslash then
        match r with
        | EmptyString => None
        | String e r1 =>
            if Ascii.eqb e "u" then
              match r1 with
              | String "0" (String "0" (String h (String l r2))) =>
                  match unhex h, unhex l with
                  | Some x, Some y => Some (ascii_of_N (16 * x + y), r2)
                  | _, _ => None
                  end
              | _ => None
              end
            else if Ascii.eqb e "b" then Some ("008"%char, r1)
            else if Ascii.eqb e "f" then Some ("012"%char, r1)
            else if Ascii.eqb e "n" then Some ("010"%char, r1)
            else if Ascii.eqb e "r" then Some ("013"%char, r1)
            else if Ascii.eqb e "t" then Some ("009"%char, r1)
            else if Ascii.eqb e dquote || Ascii.eqb e backslash then Some (e, r1)
            else None
        end
      else Some (c, r)
  end.

Definition is_digit (c : ascii) : bool :=
  let n := N_of_ascii c in ((48 <=? n) && (n <=? 57))%N.

(** Text that cannot prolong a number. *)
Definition safe (r : string) : Prop :=
  match r with
  | EmptyString => True
  | String c _ => is_digit c = false
  end.

(** The kind of JSON text a first character announces. *)
Definition class (c : ascii) : nat :=
  if Ascii.eqb c "n" then 0
  else if Ascii.eqb c "t" then 1
  else if Ascii.eqb c "f" then 2
  else if is_digit c || Ascii.eqb c "-" then 3
  else if Ascii.eqb c dquote then 4
  else if Ascii.eqb c "[" then 5
  else if Ascii.eqb c "{" then 6
  else 7.

Definition vclass (v : pyval) : nat :=
  match v with
  | PNone => 0
  | PBool true => 1
  | PBool false => 2
  | PInt _ => 3
  | PStr _ => 4
  | PList _ => 5
  | PDict _ => 6
  end.

Definition starts (c : ascii) (X : string) : Prop := exists r, X = String c r.

(** What follows an item of a list or dictionary: a comma or the closing
    bracket. *)
Definition cont (close : ascii) (X : string) : Prop := starts "," X \/ starts close X.

(** An item written by [f] can be told from what follows it. *)
Definition elem_prefix {A : Type} (f : A -> string) (close : ascii) (a : A) : Prop :=
  forall a' C C', cont close C -> cont close C' -> f a +:+ C = f a' +:+ C' -> a = a' /\ C = C'.

(** An item of a dictionary as [json.dumps] writes it. *)
Definition dumps_item (kv : string * pyval) : string :=
  json.encode_basestring_ascii (fst kv) +:+ ": " +:+ json.dumps (snd kv).

Section pyval_induction.

Variable P : pyval -> Prop.
Hypothesis HNone : P PNone.
Hypothesis HBool : forall b, P (PBool b).
Hypothesis HInt : forall z, P (PInt z).
Hypothesis HStr : forall s, P (PStr s).
Hypothesis HList : forall l, Forall P l -> P (PList l).
Hypothesis HDict : forall d, Forall (fun kv => P (snd kv)) d -> P (PDict d).

Fixpoint pyval_nested_ind (v : pyval) : P v :=
  match v with
  | PNone => HNone
  | PBool b => HBool b
  | PInt z => HInt z
  | PStr s => HStr s
  | PList l =>
      HList l
        ((fix go (l : list pyval) : Forall P l :=
            match l with
            | nil => @List.Forall_nil _ P
            | x :: t => @List.Forall_cons _ P x t (pyval_nested_ind x) (go t)
            end) l)
  | PDict d =>
      HDict d
        ((fix go (d : list (string * pyval)) : Forall (fun kv => P (snd kv)) d :=
            match d with
            | nil => @List.Forall_nil _ _
            | kv :: t => @List.Forall_cons _ _ kv t (pyval_nested_ind (snd kv)) (go t)
            end) d)
  end.

End pyval_induction.

(** Text of characters from space to tilde only. *)
Fixpoint plain (s : string) : bool :=
  match s with
  | EmptyString => true
  | String c r => ((32 <=? N_of_ascii c) && (N_of_ascii c <? 127))%N && plain r
  end.

(** ** Observations on a run *)

(** The message texts of the requests a program makes. *)
Definition messages {World : Type} (E : env World) (p : prog pyval) (o : object) (w : World)
  : list pyval :=
  map secretlib.msg_of (trace (run E p o w)).

(** The contract a request is addressed to. *)
Definition contract_of (c : secretlib.call) : pyval :=
  match c with
  | secretlib.execute_contract contract _ _ _ _ => contract
  | secretlib.query_contract contract _ => contract
  end.

(** The attributes of [self] a method reads, in the order in which its
    call expression reads them. *)
Definition reads (m : SNIP20.method) : list string :=
  match m with
  | SNIP20.call_set_minters _ | SNIP20.call_mint _ _ =>
      "address" :: "admin" :: "backend" :: nil
  | SNIP20.call_deposit _ _ | SNIP20.call_send _ _ _ | SNIP20.call_set_view_key _ _ =>
      "address" :: "backend" :: nil
  | SNIP20.call_get_balance _ _ => "address" :: nil
  end.

Fixpoint first_missing (o : object) (names : list string) : option string :=
  match names with
  | nil => None
  | n :: rest =>
      match o !! n with
      | Some _ => first_missing o rest
      | None => Some n
      end
  end.

(** An instance that has the three attributes the methods read. *)
Definition deployed (o : object) : Prop :=
  is_Some (o !! "address") /\ is_Some (o !! "admin") /\ is_Some (o !! "backend").

(** The requests a script makes, in order. *)
Fixpoint requests_of {World : Type} (E : env World) (ms : list SNIP20.method)
  (o : object) (w : World) : list secretlib.call :=
  match ms with
  | nil => nil
  | m :: rest =>
      let f := run E (SNIP20.invoke m) o w in
      trace f ++ requests_of E rest (self f) (world f)
  end.

(** The world after the backend has served the requests one by one. *)
Definition replay {World : Type} (E : env World) (cs : list secretlib.call) (w : World)
  : World :=
  fold_left (fun w c => (secretlib_handler E c w).2) cs w.

(** * Properties *)

(** ** Library functions on examples *)

Example str_100 : str (PInt 100) = "100".
Proof. reflexivity. Qed.

Example str_neg : str (PInt (-42)) = "-42".
Proof. reflexivity. Qed.

Example str_zero : str (PInt 0) = "0".
Proof. reflexivity. Qed.

Example str_of_str : str (PStr "5") = "5".
Proof. reflexivity. Qed.

Example str_list : str (PList (PStr "a" :: PInt 1 :: PNone :: nil)) = "['a', 1, None]".
Proof. reflexivity. Qed.

Example dumps_nested :
  json.dumps (PDict (("k", PList (PInt 1 :: PBool true :: nil)) :: ("e", PDict nil) :: nil))
  = "{" +:+ q "k" +:+ ": [1, true], " +:+ q "e" +:+ ": {}}".
Proof. reflexivity. Qed.

Example dumps_escape :
  json.dumps (PStr (String "010" (String "127" "a")))
  = q (String backslash "n" +:+ String backslash "u007fa").
Proof. reflexivity. Qed.

Example demo_token :
  Demo.token !! "view_key" = Some (PStr EmptyString)
  /\ Demo.token !! "address" = Some (PStr "secret1contract")
  /\ Demo.token !! "admin" = Some (PStr "a")
  /\ Demo.token !! "backend" = Some (PStr "test").
Proof. repeat split; reflexivity. Qed.

Example mint_100_text :
  map secretlib.msg_of
    (trace (run Demo.E (SNIP20.mint (PStr "secret1bob") (PInt 100)) Demo.token O))
  = PStr ("{" +:+ q "mint" +:+ ": {" +:+ q "recipient" +:+ ": " +:+ q "secret1bob" +:+ ", "
          +:+ q "amount" +:+ ": " +:+ q "100" +:+ "}}") :: nil.
Proof. reflexivity. Qed.

(** ** Subscription *)

Lemma getitem_error (v : pyval) (key : string) (e : exn) :
  getitem v key = Err e -> structural e = true.
Proof.
  destruct v as [ | b | z | s | l | d]; simpl; try (intros [= <-]; reflexivity).
  destruct (assoc key d); intros [= <-]; reflexivity.
Qed.

Lemma getitem_missing (d : list (string * pyval)) (key : string) :
  assoc key d = None -> getitem (PDict d) key = Err (KeyError key).
Proof. intros H. simpl. rewrite H. reflexivity. Qed.

Lemma assoc_None (d : list (string * pyval)) (key : string) :
  assoc key d = None <-> ~ In key (map fst d).
Proof.
  induction d as [ | [k v] d IH]; simpl.
  - tauto.
  - destruct (String.eqb_spec k key) as [-> | Hne].
    + split; [discriminate | intros H; exfalso; apply H; now left].
    + rewrite IH. split.
      * intros H [Heq | Hin]; [contradiction | exact (H Hin)].
      * intros H Hin. apply H. now right.
Qed.

(** ** Programs *)

Section Programs.

Context {World : Type} (E : env World).

(** Running [bind p f] is running [p] and then [f] on its value. *)
Lemma run_bind {A B : Type} (p : prog A) (f : A -> prog B) (o : object) (w : World) :
  run E (bind p f) o w =
  let r := run E p o w in
  match result r with
  | Ok a =>
      let r' := run E (f a) (self r) (world r) in
      {| result := result r'; self := self r'; world := world r';
         trace := trace r ++ trace r' |}
  | Err e => {| result := Err e; self := self r; world := world r; trace := trace r |}
  end.
Proof.
  revert o w.
  induction p as [a | e | n k IH | n v k IH | c k IH | s k IH | a k IH]; intros o w; simpl.
  - destruct (run E (f a) o w); reflexivity.
  - reflexivity.
  - destruct (o !! n); [apply IH | reflexivity].
  - apply IH.
  - destruct (secretlib_handler E c w) as [[v | e] w']; [ | reflexivity].
    rewrite IH. simpl. destruct (result (run E (k v) o w')); reflexivity.
  - destruct (loads E s); [apply IH | reflexivity].
  - destruct (Contract_init E a o w) as [[[u | e] o'] w']; [apply IH | reflexivity].
Qed.

(** A read-only program leaves the instance as it found it. *)
Lemma read_only_self {A : Type} (p : prog A) (o : object) (w : World) :
  read_only p -> self (run E p o w) = o.
Proof.
  revert w.
  induction p as [a | e | n k IH | n v k IH | c k IH | s k IH | a k IH];
    intros w Hp; simpl in *; try reflexivity; try contradiction.
  - destruct (o !! n); [apply IH, Hp | reflexivity].
  - destruct (secretlib_handler E c w) as [[v | e] w']; [ | reflexivity].
    simpl. apply IH, Hp.
  - destruct (loads E s); [apply IH, Hp | reflexivity].
Qed.

Lemma read_only_bind {A B : Type} (p : prog A) (f : A -> prog B) :
  read_only p -> (forall a, read_only (f a)) -> read_only (bind p f).
Proof.
  intros Hp Hf.
  induction p as [a | e | n k IH | n v k IH | c k IH | s k IH | a k IH];
    simpl in *; try contradiction; try exact I; auto.
Qed.

Lemma read_only_lift {A : Type} (r : outcome A) : read_only (lift r).
Proof. destruct r; exact I. Qed.

Lemma read_only_invoke (m : SNIP20.method) : read_only (SNIP20.invoke m).
Proof.
  destruct m; simpl; intros;
    repeat first [ exact I | apply read_only_lift | apply read_only_bind | intro ];
    simpl; auto.
Qed.

End Programs.

(** *** One step of a run *)

Section Steps.

Context {World : Type} (E : env World).

Lemma run_getattr {A : Type} (n : string) (k : pyval -> prog A) (o : object) (w : World)
  (v : pyval) :
  o !! n = Some v -> run E (bind (getattr n) k) o w = run E (k v) o w.
Proof. intros H. simpl. rewrite H. reflexivity. Qed.

Lemma run_getattr_missing {A : Type} (n : string) (k : pyval -> prog A) (o : object)
  (w : World) :
  o !! n = None ->
  run E (bind (getattr n) k) o w =
  {| result := Err (AttributeError n); self := o; world := w; trace := nil |}.
Proof. intros H. simpl. rewrite H. reflexivity. Qed.

(** A method that makes one call to [secretlib] and hands back its
    answer. *)
Lemma run_forward (c : secretlib.call) (o : object) (w : World) :
  run E (secretlib_call c) o w =
  {| result := (secretlib_handler E c w).1; self := o;
     world := (secretlib_handler E c w).2; trace := c :: nil |}.
Proof.
  simpl. destruct (secretlib_handler E c w) as [[v | e] w']; reflexivity.
Qed.

Lemma run_call_ok {A : Type} (c : secretlib.call) (k : pyval -> prog A) (o : object)
  (w : World) (v : pyval) :
  (secretlib_handler E c w).1 = Ok v ->
  run E (bind (secretlib_call c) k) o w =
  logged c (run E (k v) o (secretlib_handler E c w).2).
Proof.
  simpl. destruct (secretlib_handler E c w) as [r w']; simpl. intros ->. reflexivity.
Qed.

Lemma run_call_err {A : Type} (c : secretlib.call) (k : pyval -> prog A) (o : object)
  (w : World) (e : exn) :
  (secretlib_handler E c w).1 = Err e ->
  run E (bind (secretlib_call c) k) o w =
  {| result := Err e; self := o; world := (secretlib_handler E c w).2; trace := c :: nil |}.
Proof.
  simpl. destruct (secretlib_handler E c w) as [r w']; simpl. intros ->. reflexivity.
Qed.

Lemma run_lift_ok {A B : Type} (r : outcome A) (k : A -> prog B) (o : object) (w : World)
  (a : A) :
  r = Ok a -> run E (bind (lift r) k) o w = run E (k a) o w.
Proof. intros ->. reflexivity. Qed.

Lemma run_lift_err {A B : Type} (r : outcome A) (k : A -> prog B) (o : object) (w : World)
  (e : exn) :
  r = Err e ->
  run E (bind (lift r) k) o w = {| result := Err e; self := o; world := w; trace := nil |}.
Proof. intros ->. reflexivity. Qed.

Lemma run_final_lift {A : Type} (r : outcome A) (o : object) (w : World) :
  run E (lift r) o w = {| result := r; self := o; world := w; trace := nil |}.
Proof. destruct r; reflexivity. Qed.

Lemma run_loads_ok {A : Type} (s : pyval) (k : pyval -> prog A) (o : object) (w : World)
  (v : pyval) :
  loads E s = Ok v -> run E (bind (json_loads s) k) o w = run E (k v) o w.
Proof. intros H. simpl. rewrite H. reflexivity. Qed.

Lemma run_loads_err {A : Type} (s : pyval) (k : pyval -> prog A) (o : object) (w : World)
  (e : exn) :
  loads E s = Err e ->
  run E (bind (json_loads s) k) o w =
  {| result := Err e; self := o; world := w; trace := nil |}.
Proof. intros H. simpl. rewrite H. reflexivity. Qed.

End Steps.

(** Unfold a method down to its first call of a collaborator, reading
    the attributes from the hypotheses. *)
Ltac enter :=
  unfold mbind, prog_bind; cbv zeta;
  repeat (erewrite run_getattr by eassumption).

(** ** The methods *)

Section Adapter.

Context {World : Type} (E : env World).

(** C6. For every value [accounts] (a list of any content, empty or
    not), [set_minters] builds the message
    [{"set_minters": {"minters": accounts}}] with [accounts] placed in
    it as it is, makes exactly one [execute_contract] call with that
    message, signed by [self.admin], and returns what the backend
    returned: the response itself, or the exception it raised. *)
Theorem set_minters_spec (accounts : pyval) (o : object) (w : World)
  (address admin backend : pyval) :
  o !! "address" = Some address ->
  o !! "admin" = Some admin ->
  o !! "backend" = Some backend ->
  let parameters := PDict (("minters", accounts) :: nil) in
  let body := PDict (("set_minters", parameters) :: nil) in
  let request :=
    secretlib.execute_contract address (PStr (json.dumps body)) admin backend None in
  let f := run E (SNIP20.set_minters accounts) o w in
  trace f = request :: nil
  /\ result f = (secretlib_handler E request w).1
  /\ world f = (secretlib_handler E request w).2
  /\ getitem parameters "minters" = Ok accounts.
Proof.
  intros Ha Had Hb parameters body request f. subst f.
  unfold SNIP20.set_minters. enter. rewrite run_forward.
  repeat split; reflexivity.
Qed.

(** C5. For every account and amount, [deposit] builds the constant
    message [{"deposit": {}}], whose parameter object is empty whatever
    the arguments are, and makes exactly one [execute_contract] call
    with the given account as sender and the amount as the fifth,
    transaction value, argument; the amount is no field of the message. *)
Theorem deposit_spec (account amount : pyval) (o : object) (w : World)
  (address backend : pyval) :
  o !! "address" = Some address ->
  o !! "backend" = Some backend ->
  let body := PDict (("deposit", PDict nil) :: nil) in
  let request :=
    secretlib.execute_contract address (PStr (json.dumps body)) account backend
      (Some amount) in
  let f := run E (SNIP20.deposit account amount) o w in
  trace f = request :: nil
  /\ result f = (secretlib_handler E request w).1
  /\ world f = (secretlib_handler E request w).2
  /\ json.dumps body = "{" +:+ q "deposit" +:+ ": {}}".
Proof.
  intros Ha Hb body request f. subst f.
  unfold SNIP20.deposit. enter. rewrite run_forward.
  repeat split; reflexivity.
Qed.

(** C3. For every recipient and amount, [mint] builds a message whose
    only top-level key is [mint], with the fields [recipient] (the given
    recipient) and [amount] (the [str] of the given amount; for the
    amount 100 the string "100"), and makes exactly one
    [execute_contract] call with it, signed by [self.admin] whatever the
    recipient is. *)
Theorem mint_spec (recipient amount : pyval) (o : object) (w : World)
  (address admin backend : pyval) :
  o !! "address" = Some address ->
  o !! "admin" = Some admin ->
  o !! "backend" = Some backend ->
  let parameters := PDict (("recipient", recipient) :: ("amount", PStr (str amount)) :: nil) in
  let body := PDict (("mint", parameters) :: nil) in
  let request :=
    secretlib.execute_contract address (PStr (json.dumps body)) admin backend None in
  let f := run E (SNIP20.mint recipient amount) o w in
  trace f = request :: nil
  /\ result f = (secretlib_handler E request w).1
  /\ world f = (secretlib_handler E request w).2
  /\ getitem parameters "recipient" = Ok recipient
  /\ getitem parameters "amount" = Ok (PStr (str amount))
  /\ str (PInt 100) = "100".
Proof.
  intros Ha Had Hb parameters body request f. subst f.
  unfold SNIP20.mint. enter. rewrite run_forward.
  repeat split; reflexivity.
Qed.

(** C4. For every source account, recipient and amount, [send] builds a
    message keyed [send] whose parameter object has exactly the two
    fields [recipient] and [amount] (the [str] of the amount; "5" for
    the amount 5), so that the message is the same for every source
    account, and makes exactly one [execute_contract] call with it, with
    the source account as the signing sender. *)
Theorem send_spec (account recipient amount : pyval) (o : object) (w : World)
  (address backend : pyval) :
  o !! "address" = Some address ->
  o !! "backend" = Some backend ->
  let parameters := PDict (("recipient", recipient) :: ("amount", PStr (str amount)) :: nil) in
  let body := PDict (("send", parameters) :: nil) in
  let request :=
    secretlib.execute_contract address (PStr (json.dumps body)) account backend None in
  let f := run E (SNIP20.send account recipient amount) o w in
  trace f = request :: nil
  /\ result f = (secretlib_handler E request w).1
  /\ world f = (secretlib_handler E request w).2
  /\ (forall account' : pyval,
        map secretlib.msg_of (trace (run E (SNIP20.send account' recipient amount) o w))
        = PStr (json.dumps body) :: nil)
  /\ str (PInt 5) = "5".
Proof.
  intros Ha Hb parameters body request f. subst f.
  unfold SNIP20.send. enter. rewrite run_forward.
  repeat split; try reflexivity.
  intros account'. enter. rewrite run_forward. reflexivity.
Qed.

(** The run of [get_balance] in one equation. *)
Lemma run_get_balance (address password : pyval) (o : object) (w : World)
  (self_address : pyval) :
  o !! "address" = Some self_address ->
  let body :=
    PDict (("balance", PDict (("key", password) :: ("address", address) :: nil)) :: nil) in
  let request := secretlib.query_contract self_address (PStr (json.dumps body)) in
  run E (SNIP20.get_balance address password) o w =
  {| result :=
       and_then (secretlib_handler E request w).1 (fun response =>
       and_then (getitem response "balance") (fun balance =>
       getitem balance "amount"));
     self := o;
     world := (secretlib_handler E request w).2;
     trace := request :: nil |}.
Proof.
  intros Ha body request.
  unfold SNIP20.get_balance. enter. fold body. fold request.
  destruct (secretlib_handler E request w) as [[response | e] w'] eqn:Hh.
  - rewrite (run_call_ok E request _ o w response) by (rewrite Hh; reflexivity).
    rewrite Hh. simpl fst; simpl snd. unfold and_then at 1.
    destruct (getitem response "balance") as [balance | e].
    + rewrite (run_lift_ok E _ _ o w' balance eq_refl), run_final_lift. reflexivity.
    + rewrite (run_lift_err E _ _ o w' e eq_refl). reflexivity.
  - rewrite (run_call_err E request _ o w e) by (rewrite Hh; reflexivity).
    rewrite Hh. reflexivity.
Qed.

(** C2. For every address and viewing key, [get_balance] builds the
    message [{"balance": {"key": password, "address": address}}], makes
    exactly one [query_contract] call with it on the contract's own
    address, and returns the value found under [balance] and then
    [amount] in the response.  An exception of the backend, and the
    error of a subscript that fails (a [KeyError] when a key is
    missing), reach the caller as they are. *)
Theorem get_balance_spec (address password : pyval) (o : object) (w : World)
  (self_address : pyval) :
  o !! "address" = Some self_address ->
  let body :=
    PDict (("balance", PDict (("key", password) :: ("address", address) :: nil)) :: nil) in
  let request := secretlib.query_contract self_address (PStr (json.dumps body)) in
  let f := run E (SNIP20.get_balance address password) o w in
  trace f = request :: nil
  /\ world f = (secretlib_handler E request w).2
  /\ (forall e, (secretlib_handler E request w).1 = Err e -> result f = Err e)
  /\ (forall response balance amount,
        (secretlib_handler E request w).1 = Ok response ->
        getitem response "balance" = Ok balance ->
        getitem balance "amount" = Ok amount ->
        result f = Ok amount)
  /\ (forall response e,
        (secretlib_handler E request w).1 = Ok response ->
        getitem response "balance" = Err e ->
        result f = Err e /\ structural e = true)
  /\ (forall response balance e,
        (secretlib_handler E request w).1 = Ok response ->
        getitem response "balance" = Ok balance ->
        getitem balance "amount" = Err e ->
        result f = Err e /\ structural e = true)
  /\ (forall d,
        (secretlib_handler E request w).1 = Ok (PDict d) ->
        assoc "balance" d = None ->
        result f = Err (KeyError "balance"))
  /\ (forall response d,
        (secretlib_handler E request w).1 = Ok response ->
        getitem response "balance" = Ok (PDict d) ->
        assoc "amount" d = None ->
        result f = Err (KeyError "amount")).
Proof.
  intros Ha body request f. subst f.
  rewrite (run_get_balance address password o w self_address Ha).
  fold body. fold request. cbn [trace world result].
  split; [reflexivity | ]. split; [reflexivity | ].
  split; [intros e -> ; reflexivity | ].
  split; [intros response balance amount -> ; simpl; intros ->; simpl; intros ->; reflexivity | ].
  split.
  { intros response e -> ; simpl; intros H; rewrite H.
    split; [reflexivity | exact (getitem_error _ _ _ H)]. }
  split.
  { intros response balance e -> ; simpl; intros -> ; simpl; intros H; rewrite H.
    split; [reflexivity | exact (getitem_error _ _ _ H)]. }
  split.
  { intros d -> Hd. simpl. rewrite Hd. reflexivity. }
  intros response d -> ; simpl; intros -> Hd. simpl. rewrite Hd. reflexivity.
Qed.

(** The run of [set_view_key] in one equation. *)
Lemma run_set_view_key (account entropy : pyval) (o : object) (w : World)
  (address backend : pyval) :
  o !! "address" = Some address ->
  o !! "backend" = Some backend ->
  let body := PDict (("create_viewing_key", PDict (("entropy", entropy) :: nil)) :: nil) in
  let request :=
    secretlib.execute_contract address (PStr (json.dumps body)) account backend None in
  run E (SNIP20.set_view_key account entropy) o w =
  {| result :=
       and_then (secretlib_handler E request w).1 (fun response =>
       and_then (getitem response "output_data_as_string") (fun output =>
       and_then (loads E output) (fun parsed =>
       and_then (getitem parsed "create_viewing_key") (fun created =>
       getitem created "key"))));
     self := o;
     world := (secretlib_handler E request w).2;
     trace := request :: nil |}.
Proof.
  intros Ha Hb body request.
  unfold SNIP20.set_view_key. enter. fold body. fold request.
  destruct (secretlib_handler E request w) as [[response | e] w'] eqn:Hh.
  - rewrite (run_call_ok E request _ o w response) by (rewrite Hh; reflexivity).
    rewrite Hh. simpl fst; simpl snd. unfold and_then at 1.
    destruct (getitem response "output_data_as_string") as [output | e];
      [ | rewrite (run_lift_err E _ _ o w' e eq_refl); reflexivity].
    rewrite (run_lift_ok E _ _ o w' output eq_refl). unfold and_then at 1.
    destruct (loads E output) as [parsed | e] eqn:Hl;
      [ | rewrite (run_loads_err E _ _ o w' e Hl); reflexivity].
    rewrite (run_loads_ok E _ _ o w' parsed Hl). unfold and_then at 1.
    destruct (getitem parsed "create_viewing_key") as [created | e];
      [ | rewrite (run_lift_err E _ _ o w' e eq_refl); reflexivity].
    rewrite (run_lift_ok E _ _ o w' created eq_refl), run_final_lift. reflexivity.
  - rewrite (run_call_err E request _ o w e) by (rewrite Hh; reflexivity).
    rewrite Hh. reflexivity.
Qed.

(** C1. For every account and entropy, [set_view_key] builds the message
    [{"create_viewing_key": {"entropy": entropy}}], makes exactly one
    [execute_contract] call with it and the given account as sender, and
    returns the value found under [create_viewing_key] and then [key] in
    what [json.loads] makes of the response's [output_data_as_string].
    When a key is missing ([KeyError]), a subscripted value is no
    dictionary ([TypeError]), the decoder rejects the field, or the
    backend raises, that exception reaches the caller as it is, and
    nothing more is asked of the backend. *)
Theorem set_view_key_spec (account entropy : pyval) (o : object) (w : World)
  (address backend : pyval) :
  o !! "address" = Some address ->
  o !! "backend" = Some backend ->
  let body := PDict (("create_viewing_key", PDict (("entropy", entropy) :: nil)) :: nil) in
  let request :=
    secretlib.execute_contract address (PStr (json.dumps body)) account backend None in
  let f := run E (SNIP20.set_view_key account entropy) o w in
  trace f = request :: nil
  /\ world f = (secretlib_handler E request w).2
  /\ (forall e, (secretlib_handler E request w).1 = Err e -> result f = Err e)
  /\ (forall response output parsed created key,
        (secretlib_handler E request w).1 = Ok response ->
        getitem response "output_data_as_string" = Ok output ->
        loads E output = Ok parsed ->
        getitem parsed "create_viewing_key" = Ok created ->
        getitem created "key" = Ok key ->
        result f = Ok key)
  /\ (forall response e,
        (secretlib_handler E request w).1 = Ok response ->
        getitem response "output_data_as_string" = Err e ->
        result f = Err e /\ structural e = true)
  /\ (forall response output e,
        (secretlib_handler E request w).1 = Ok response ->
        getitem response "output_data_as_string" = Ok output ->
        loads E output = Err e ->
        result f = Err e)
  /\ (forall response output parsed e,
        (secretlib_handler E request w).1 = Ok response ->
        getitem response "output_data_as_string" = Ok output ->
        loads E output = Ok parsed ->
        getitem parsed "create_viewing_key" = Err e ->
        result f = Err e /\ structural e = true)
  /\ (forall response output parsed created e,
        (secretlib_handler E request w).1 = Ok response ->
        getitem response "output_data_as_string" = Ok output ->
        loads E output = Ok parsed ->
        getitem parsed "create_viewing_key" = Ok created ->
        getitem created "key" = Err e ->
        result f = Err e /\ structural e = true)
  /\ (forall d,
        (secretlib_handler E request w).1 = Ok (PDict d) ->
        assoc "output_data_as_string" d = None ->
        result f = Err (KeyError "output_data_as_string"))
  /\ (forall response output d,
        (secretlib_handler E request w).1 = Ok response ->
        getitem response "output_data_as_string" = Ok output ->
        loads E output = Ok (PDict d) ->
        assoc "create_viewing_key" d = None ->
        result f = Err (KeyError "create_viewing_key"))
  /\ (forall response output parsed d,
        (secretlib_handler E request w).1 = Ok response ->
        getitem response "output_data_as_string" = Ok output ->
        loads E output = Ok parsed ->
        getitem parsed "create_viewing_key" = Ok (PDict d) ->
        assoc "key" d = None ->
        result f = Err (KeyError "key")).
Proof.
  intros Ha Hb body request f. subst f.
  rewrite (run_set_view_key account entropy o w address backend Ha Hb).
  fold body. fold request. cbn [trace world result].
  split; [reflexivity | ]. split; [reflexivity | ].
  split; [intros e -> ; reflexivity | ].
  split.
  { intros response output parsed created key H1 H2 H3 H4 H5.
    rewrite H1; simpl. rewrite H2; simpl. rewrite H3; simpl. rewrite H4; simpl. exact H5. }
  split.
  { intros response e H1 H2. rewrite H1; simpl. rewrite H2; simpl.
    split; [reflexivity | exact (getitem_error _ _ _ H2)]. }
  split.
  { intros response output e H1 H2 H3.
    rewrite H1; simpl. rewrite H2; simpl. rewrite H3; reflexivity. }
  split.
  { intros response output parsed e H1 H2 H3 H4.
    rewrite H1; simpl. rewrite H2; simpl. rewrite H3; simpl. rewrite H4; simpl.
    split; [reflexivity | exact (getitem_error _ _ _ H4)]. }
  split.
  { intros response output parsed created e H1 H2 H3 H4 H5.
    rewrite H1; simpl. rewrite H2; simpl. rewrite H3; simpl. rewrite H4; simpl.
    split; [exact H5 | exact (getitem_error _ _ _ H5)]. }
  split.
  { intros d H1 Hd. rewrite H1; simpl. rewrite Hd; reflexivity. }
  split.
  { intros response output d H1 H2 H3 Hd.
    rewrite H1; simpl. rewrite H2; simpl. rewrite H3; simpl. rewrite Hd; reflexivity. }
  intros response output parsed d H1 H2 H3 H4 Hd.
  rewrite H1; simpl. rewrite H2; simpl. rewrite H3; simpl. rewrite H4; simpl.
  rewrite Hd; reflexivity.
Qed.

(** *** The request envelope *)

(** The one call a method makes when the instance has its attributes. *)
Lemma invoke_trace (m : SNIP20.method) (o : object) (w : World)
  (address admin backend : pyval) :
  o !! "address" = Some address ->
  o !! "admin" = Some admin ->
  o !! "backend" = Some backend ->
  exists c parameters,
    trace (run E (SNIP20.invoke m) o w) = c :: nil
    /\ secretlib.msg_of c
       = PStr (json.dumps (PDict ((SNIP20.operation m, PDict parameters) :: nil))).
Proof.
  intros Ha Had Hb.
  destruct m as [accounts | account amount | recipient amount | account recipient amount
                | account entropy | address' password]; simpl SNIP20.invoke.
  - unfold SNIP20.set_minters. enter. rewrite run_forward.
    eexists _, _. split; reflexivity.
  - unfold SNIP20.deposit. enter. rewrite run_forward.
    eexists _, _. split; reflexivity.
  - unfold SNIP20.mint. enter. rewrite run_forward.
    eexists _, _. split; reflexivity.
  - unfold SNIP20.send. enter. rewrite run_forward.
    eexists _, _. split; reflexivity.
  - rewrite (run_set_view_key account entropy o w address backend Ha Hb).
    eexists _, _. split; reflexivity.
  - rewrite (run_get_balance address' password o w address Ha).
    eexists _, _. split; reflexivity.
Qed.

(** Whatever the instance holds, a method asks nothing of [secretlib]
    that is not in the envelope of its operation. *)
Lemma invoke_trace_any (m : SNIP20.method) (o : object) (w : World) :
  Forall (envelope (SNIP20.operation m)) (trace (run E (SNIP20.invoke m) o w)).
Proof.
  destruct (o !! "address") as [address | ] eqn:Ha.
  - destruct (o !! "backend") as [backend | ] eqn:Hb.
    + destruct (o !! "admin") as [admin | ] eqn:Had.
      * destruct (invoke_trace m o w address admin backend Ha Had Hb)
          as (c & parameters & -> & Hc).
        constructor; [exists parameters; exact Hc | constructor].
      * destruct m; simpl SNIP20.invoke.
        -- unfold SNIP20.set_minters. enter.
           rewrite run_getattr_missing by exact Had. constructor.
        -- unfold SNIP20.deposit. enter. rewrite run_forward.
           constructor; [eexists; reflexivity | constructor].
        -- unfold SNIP20.mint. enter.
           rewrite run_getattr_missing by exact Had. constructor.
        -- unfold SNIP20.send. enter. rewrite run_forward.
           constructor; [eexists; reflexivity | constructor].
        -- rewrite (run_set_view_key _ _ o w address backend Ha Hb).
           constructor; [eexists; reflexivity | constructor].
        -- rewrite (run_get_balance _ _ o w address Ha).
           constructor; [eexists; reflexivity | constructor].
    + destruct m; simpl SNIP20.invoke.
      * unfold SNIP20.set_minters. enter.
        destruct (o !! "admin") as [admin | ] eqn:Had.
        -- erewrite run_getattr by exact Had. simpl. rewrite Hb. constructor.
        -- rewrite run_getattr_missing by exact Had. constructor.
      * unfold SNIP20.deposit. enter. simpl. rewrite Hb. constructor.
      * unfold SNIP20.mint. enter.
        destruct (o !! "admin") as [admin | ] eqn:Had.
        -- erewrite run_getattr by exact Had. simpl. rewrite Hb. constructor.
        -- rewrite run_getattr_missing by exact Had. constructor.
      * unfold SNIP20.send. enter. simpl. rewrite Hb. constructor.
      * unfold SNIP20.set_view_key. enter.
        rewrite run_getattr_missing by exact Hb. constructor.
      * rewrite (run_get_balance _ _ o w address Ha).
        constructor; [eexists; reflexivity | constructor].
  - destruct m; simpl SNIP20.invoke;
      [ unfold SNIP20.set_minters | unfold SNIP20.deposit | unfold SNIP20.mint
      | unfold SNIP20.send | unfold SNIP20.set_view_key | unfold SNIP20.get_balance ];
      enter; rewrite run_getattr_missing by exact Ha; constructor.
Qed.

(** C8. For every method and every choice of arguments, the message of
    every request the method makes is the serialisation of an object
    with exactly one top-level key, the name of the contract operation,
    whose value is an object of named parameters; on an instance that
    has its attributes the method makes exactly one such request. *)
Theorem request_envelope (m : SNIP20.method) (o : object) (w : World) :
  Forall (envelope (SNIP20.operation m)) (trace (run E (SNIP20.invoke m) o w))
  /\ (forall address admin backend : pyval,
        o !! "address" = Some address ->
        o !! "admin" = Some admin ->
        o !! "backend" = Some backend ->
        exists c, trace (run E (SNIP20.invoke m) o w) = c :: nil).
Proof.
  split.
  - apply invoke_trace_any.
  - intros address admin backend Ha Had Hb.
    destruct (invoke_trace m o w address admin backend Ha Had Hb) as (c & _ & Hc & _).
    exists c. exact Hc.
Qed.

(** *** The instance *)

Lemma run_all_self (ms : list SNIP20.method) (o : object) (w : World) :
  (run_all E ms o w).1 = o.
Proof.
  revert o w. induction ms as [ | m ms IH]; intros o w; simpl.
  - reflexivity.
  - rewrite IH. apply read_only_self, read_only_invoke.
Qed.

(** The constructor: [view_key] is set to the empty string, then the
    base class constructor runs on the instance. *)
Lemma run_init (p : SNIP20.params) (o : object) (w : World) :
  let args :=
    {| Contract.contract := SNIP20.contract p;
       Contract.initMsg := PStr (SNIP20.initMsg p);
       Contract.label := SNIP20.label p;
       Contract.admin := SNIP20.admin p;
       Contract.uploader := SNIP20.uploader p;
       Contract.gas := SNIP20.gas p;
       Contract.backend := SNIP20.backend p |} in
  let base := Contract_init E args (<["view_key" := PStr EmptyString]> o) w in
  run E (SNIP20.__init__ p) o w =
  {| result := base.1.1; self := base.1.2; world := base.2; trace := nil |}.
Proof.
  intros args base. subst base. unfold SNIP20.__init__, mbind, prog_bind. cbv zeta.
  simpl. fold args.
  destruct (Contract_init E args (<["view_key" := PStr EmptyString]> o) w)
    as [[[[] | e] o'] w']; reflexivity.
Qed.

(** C9. Every operation of the adapter, and every sequence of them,
    leaves the attributes of the token instance as they were: no
    operation writes [view_key] ([set_view_key] returns the key and does
    not store it), and [address], [admin] and [backend] are not modified.
    The constructor sets [view_key] to the empty string before the base
    class constructor runs, so when the base class leaves [view_key]
    alone it is the empty string after construction and after every
    sequence of operations. *)
Theorem operations_preserve_instance (ms : list SNIP20.method) (o : object) (w : World) :
  (forall m : SNIP20.method, self (run E (SNIP20.invoke m) o w) = o)
  /\ (run_all E ms o w).1 = o
  /\ (forall attribute : string, (run_all E ms o w).1 !! attribute = o !! attribute)
  /\ (forall p : SNIP20.params,
        (forall a o' w', (Contract_init E a o' w').1.2 !! "view_key" = o' !! "view_key") ->
        let built := run E (SNIP20.__init__ p) o w in
        (run_all E ms (self built) (world built)).1 !! "view_key" = Some (PStr EmptyString)).
Proof.
  split; [intros m; apply read_only_self, read_only_invoke | ].
  split; [apply run_all_self | ].
  split; [intros attribute; rewrite run_all_self; reflexivity | ].
  intros p Hbase built. rewrite run_all_self. subst built.
  rewrite run_init. cbn [self]. rewrite Hbase. apply lookup_insert_eq.
Qed.

(** *** The viewing key request *)

(** C10. The message [set_view_key] submits depends on the entropy only:
    for every two accounts and every entropy, on any two instances and
    in any two worlds, every request made carries the serialisation of
    [{"create_viewing_key": {"entropy": entropy}}]; on an instance that
    has its attributes each call makes one request, so that on one
    instance the two requests are the same but for the sending account. *)
Theorem set_view_key_message (account1 account2 entropy : pyval) (o1 o2 : object)
  (w1 w2 : World) :
  let msg :=
    PStr (json.dumps
            (PDict (("create_viewing_key", PDict (("entropy", entropy) :: nil)) :: nil))) in
  let t1 := trace (run E (SNIP20.set_view_key account1 entropy) o1 w1) in
  let t2 := trace (run E (SNIP20.set_view_key account2 entropy) o2 w2) in
  Forall (fun c => secretlib.msg_of c = msg) t1
  /\ Forall (fun c => secretlib.msg_of c = msg) t2
  /\ (forall address backend : pyval,
        o1 !! "address" = Some address ->
        o1 !! "backend" = Some backend ->
        t1 = secretlib.execute_contract address msg account1 backend None :: nil)
  /\ (forall address backend : pyval,
        o2 !! "address" = Some address ->
        o2 !! "backend" = Some backend ->
        t2 = secretlib.execute_contract address msg account2 backend None :: nil).
Proof.
  intros msg t1 t2.
  assert (Hany : forall account o w,
             Forall (fun c => secretlib.msg_of c = msg)
               (trace (run E (SNIP20.set_view_key account entropy) o w))).
  { intros account o w.
    destruct (o !! "address") as [address | ] eqn:Ha.
    - destruct (o !! "backend") as [backend | ] eqn:Hb.
      + rewrite (run_set_view_key account entropy o w address backend Ha Hb).
        constructor; [reflexivity | constructor].
      + unfold SNIP20.set_view_key. enter.
        rewrite run_getattr_missing by exact Hb. constructor.
    - unfold SNIP20.set_view_key. enter.
      rewrite run_getattr_missing by exact Ha. constructor. }
  split; [apply Hany | ]. split; [apply Hany | ].
  split; intros address backend Ha Hb; subst t1 t2;
    rewrite (run_set_view_key _ entropy _ _ address backend Ha Hb); reflexivity.
Qed.

(** *** The constructor *)

(** C7, as the code has it. The token metadata and the five feature
    flags are the fields of the JSON initialisation payload: [name],
    [symbol], [decimals] and the seed (as [prng_seed]) at the top level,
    the flags under [config].  The label, the contract file, the
    administrator, the uploader, the gas limit and the backend target
    are no part of the payload: the constructor hands them to the base
    class constructor as arguments of their own, next to the payload. *)
Theorem init_spec (p : SNIP20.params) (o : object) (w : World) :
  let payload := SNIP20.init_payload p in
  let args :=
    {| Contract.contract := SNIP20.contract p;
       Contract.initMsg := PStr (json.dumps payload);
       Contract.label := SNIP20.label p;
       Contract.admin := SNIP20.admin p;
       Contract.uploader := SNIP20.uploader p;
       Contract.gas := SNIP20.gas p;
       Contract.backend := SNIP20.backend p |} in
  let base := Contract_init E args (<["view_key" := PStr EmptyString]> o) w in
  let f := run E (SNIP20.__init__ p) o w in
  (result f = base.1.1 /\ self f = base.1.2 /\ world f = base.2)
  /\ (getitem payload "name" = Ok (SNIP20.name p)
      /\ getitem payload "symbol" = Ok (SNIP20.symbol p)
      /\ getitem payload "decimals" = Ok (SNIP20.decimals p)
      /\ getitem payload "prng_seed" = Ok (SNIP20.seed p))
  /\ (exists config,
        getitem payload "config" = Ok config
        /\ getitem config "public_total_supply" = Ok (SNIP20.public_total_supply p)
        /\ getitem config "enable_deposit" = Ok (SNIP20.enable_deposit p)
        /\ getitem config "enable_redeem" = Ok (SNIP20.enable_redeem p)
        /\ getitem config "enable_mint" = Ok (SNIP20.enable_mint p)
        /\ getitem config "enable_burn" = Ok (SNIP20.enable_burn p))
  /\ (forall p' : SNIP20.params,
        SNIP20.name p' = SNIP20.name p ->
        SNIP20.symbol p' = SNIP20.symbol p ->
        SNIP20.decimals p' = SNIP20.decimals p ->
        SNIP20.seed p' = SNIP20.seed p ->
        SNIP20.public_total_supply p' = SNIP20.public_total_supply p ->
        SNIP20.enable_deposit p' = SNIP20.enable_deposit p ->
        SNIP20.enable_redeem p' = SNIP20.enable_redeem p ->
        SNIP20.enable_mint p' = SNIP20.enable_mint p ->
        SNIP20.enable_burn p' = SNIP20.enable_burn p ->
        SNIP20.initMsg p' = SNIP20.initMsg p).
Proof.
  intros payload args base f. subst f. rewrite run_init.
  split; [repeat split | ].
  split; [repeat split | ].
  split.
  { eexists. repeat split. }
  intros p' H1 H2 H3 H4 H5 H6 H7 H8 H9.
  unfold SNIP20.initMsg, SNIP20.init_payload.
  rewrite H1, H2, H3, H4, H5, H6, H7, H8, H9. reflexivity.
Qed.

End Adapter.

(** ** The theorems at work in the test environment *)

Lemma set_minters_spec_witness :
  let accounts := PList (PStr "alice" :: PStr "bob" :: nil) in
  let f := run Demo.E (SNIP20.set_minters accounts) Demo.token O in
  (Demo.token !! "address" = Some (PStr "secret1contract")
   /\ Demo.token !! "admin" = Some (PStr "a")
   /\ Demo.token !! "backend" = Some (PStr "test"))
  /\ trace f
     = secretlib.execute_contract (PStr "secret1contract")
         (PStr ("{" +:+ q "set_minters" +:+ ": {" +:+ q "minters" +:+ ": [" +:+ q "alice"
                +:+ ", " +:+ q "bob" +:+ "]}}"))
         (PStr "a") (PStr "test") None :: nil
  /\ result f = Ok (PDict (("output_data_as_string", PStr Demo.output) :: nil)).
Proof.
  intros accounts f. split; [repeat split | ].
  destruct (set_minters_spec Demo.E accounts Demo.token O
              (PStr "secret1contract") (PStr "a") (PStr "test") eq_refl eq_refl eq_refl)
    as (Ht & Hr & _).
  split; [exact Ht | exact Hr].
Defined.

Lemma deposit_spec_witness :
  let f := run Demo.E (SNIP20.deposit (PStr "alice") (PStr "1000uscrt")) Demo.token O in
  (Demo.token !! "address" = Some (PStr "secret1contract")
   /\ Demo.token !! "backend" = Some (PStr "test"))
  /\ trace f
     = secretlib.execute_contract (PStr "secret1contract")
         (PStr ("{" +:+ q "deposit" +:+ ": {}}"))
         (PStr "alice") (PStr "test") (Some (PStr "1000uscrt")) :: nil.
Proof.
  intros f. split; [repeat split | ].
  destruct (deposit_spec Demo.E (PStr "alice") (PStr "1000uscrt") Demo.token O
              (PStr "secret1contract") (PStr "test") eq_refl eq_refl)
    as (Ht & _).
  exact Ht.
Defined.

Lemma mint_spec_witness :
  let f := run Demo.E (SNIP20.mint (PStr "secret1bob") (PInt 100)) Demo.token O in
  (Demo.token !! "address" = Some (PStr "secret1contract")
   /\ Demo.token !! "admin" = Some (PStr "a")
   /\ Demo.token !! "backend" = Some (PStr "test"))
  /\ trace f
     = secretlib.execute_contract (PStr "secret1contract")
         (PStr ("{" +:+ q "mint" +:+ ": {" +:+ q "recipient" +:+ ": " +:+ q "secret1bob"
                +:+ ", " +:+ q "amount" +:+ ": " +:+ q "100" +:+ "}}"))
         (PStr "a") (PStr "test") None :: nil.
Proof.
  intros f. split; [repeat split | ].
  destruct (mint_spec Demo.E (PStr "secret1bob") (PInt 100) Demo.token O
              (PStr "secret1contract") (PStr "a") (PStr "test") eq_refl eq_refl eq_refl)
    as (Ht & _).
  exact Ht.
Defined.

Lemma send_spec_witness :
  let f := run Demo.E (SNIP20.send (PStr "alice") (PStr "secret1bob") (PInt 5)) Demo.token O in
  (Demo.token !! "address" = Some (PStr "secret1contract")
   /\ Demo.token !! "backend" = Some (PStr "test"))
  /\ trace f
     = secretlib.execute_contract (PStr "secret1contract")
         (PStr ("{" +:+ q "send" +:+ ": {" +:+ q "recipient" +:+ ": " +:+ q "secret1bob"
                +:+ ", " +:+ q "amount" +:+ ": " +:+ q "5" +:+ "}}"))
         (PStr "alice") (PStr "test") None :: nil.
Proof.
  intros f. split; [repeat split | ].
  destruct (send_spec Demo.E (PStr "alice") (PStr "secret1bob") (PInt 5) Demo.token O
              (PStr "secret1contract") (PStr "test") eq_refl eq_refl)
    as (Ht & _).
  exact Ht.
Defined.

Lemma get_balance_spec_witness :
  let f := run Demo.E (SNIP20.get_balance (PStr "secret1bob") (PStr "api_key_1")) Demo.token O in
  Demo.token !! "address" = Some (PStr "secret1contract")
  /\ trace f
     = secretlib.query_contract (PStr "secret1contract")
         (PStr ("{" +:+ q "balance" +:+ ": {" +:+ q "key" +:+ ": " +:+ q "api_key_1"
                +:+ ", " +:+ q "address" +:+ ": " +:+ q "secret1bob" +:+ "}}")) :: nil
  /\ result f = Ok (PStr "100").
Proof.
  intros f. split; [reflexivity | ].
  destruct (get_balance_spec Demo.E (PStr "secret1bob") (PStr "api_key_1") Demo.token O
              (PStr "secret1contract") eq_refl)
    as (Ht & _ & _ & Hok & _).
  split; [exact Ht | ].
  exact (Hok _ _ _ eq_refl eq_refl eq_refl).
Defined.

Lemma set_view_key_spec_witness :
  let f := run Demo.E (SNIP20.set_view_key (PStr "alice") (PStr "c2VlZA==")) Demo.token O in
  (Demo.token !! "address" = Some (PStr "secret1contract")
   /\ Demo.token !! "backend" = Some (PStr "test"))
  /\ trace f
     = secretlib.execute_contract (PStr "secret1contract")
         (PStr ("{" +:+ q "create_viewing_key" +:+ ": {" +:+ q "entropy" +:+ ": "
                +:+ q "c2VlZA==" +:+ "}}"))
         (PStr "alice") (PStr "test") None :: nil
  /\ result f = Ok (PStr "api_key_1").
Proof.
  intros f. split; [repeat split | ].
  destruct (set_view_key_spec Demo.E (PStr "alice") (PStr "c2VlZA==") Demo.token O
              (PStr "secret1contract") (PStr "test") eq_refl eq_refl)
    as (Ht & _ & _ & Hok & _).
  split; [exact Ht | ].
  exact (Hok _ _ _ _ _ eq_refl eq_refl eq_refl eq_refl eq_refl).
Defined.

Lemma request_envelope_witness :
  let m := SNIP20.call_send (PStr "alice") (PStr "secret1bob") (PInt 5) in
  (Demo.token !! "address" = Some (PStr "secret1contract")
   /\ Demo.token !! "admin" = Some (PStr "a")
   /\ Demo.token !! "backend" = Some (PStr "test"))
  /\ Forall (envelope "send") (trace (run Demo.E (SNIP20.invoke m) Demo.token O))
  /\ exists c, trace (run Demo.E (SNIP20.invoke m) Demo.token O) = c :: nil.
Proof.
  intros m. split; [repeat split | ].
  destruct (request_envelope Demo.E m Demo.token O) as (Hall & Hone).
  split; [exact Hall | ].
  exact (Hone (PStr "secret1contract") (PStr "a") (PStr "test") eq_refl eq_refl eq_refl).
Defined.

Lemma demo_deploy_keeps_view_key (a : Contract.init_args) (o : object) (w : nat) :
  (Contract_init Demo.E a o w).1.2 !! "view_key" = o !! "view_key".
Proof.
  simpl. rewrite !lookup_insert_ne by discriminate. reflexivity.
Defined.

Lemma operations_preserve_instance_witness :
  let ms :=
    SNIP20.call_set_view_key (PStr "alice") (PStr "c2VlZA==")
    :: SNIP20.call_mint (PStr "alice") (PInt 100)
    :: SNIP20.call_get_balance (PStr "alice") (PStr "api_key_1") :: nil in
  let built := run Demo.E (SNIP20.__init__ (SNIP20.defaults (PStr "demo"))) ∅ O in
  (forall a o w, (Contract_init Demo.E a o w).1.2 !! "view_key" = o !! "view_key")
  /\ (run_all Demo.E ms (self built) (world built)).1 !! "view_key" = Some (PStr EmptyString).
Proof.
  intros ms built. split; [exact demo_deploy_keeps_view_key | ].
  destruct (operations_preserve_instance Demo.E ms ∅ O) as (_ & _ & _ & Hkey).
  exact (Hkey (SNIP20.defaults (PStr "demo")) demo_deploy_keeps_view_key).
Defined.

Lemma set_view_key_message_witness :
  let msg :=
    PStr ("{" +:+ q "create_viewing_key" +:+ ": {" +:+ q "entropy" +:+ ": "
          +:+ q "c2VlZA==" +:+ "}}") in
  (Demo.token !! "address" = Some (PStr "secret1contract")
   /\ Demo.token !! "backend" = Some (PStr "test"))
  /\ trace (run Demo.E (SNIP20.set_view_key (PStr "alice") (PStr "c2VlZA==")) Demo.token O)
     = secretlib.execute_contract (PStr "secret1contract") msg (PStr "alice") (PStr "test")
         None :: nil
  /\ trace (run Demo.E (SNIP20.set_view_key (PStr "bob") (PStr "c2VlZA==")) Demo.token O)
     = secretlib.execute_contract (PStr "secret1contract") msg (PStr "bob") (PStr "test")
         None :: nil.
Proof.
  intros msg. split; [repeat split | ].
  destruct (set_view_key_message Demo.E (PStr "alice") (PStr "bob") (PStr "c2VlZA==")
              Demo.token Demo.token O O)
    as (_ & _ & H1 & H2).
  split.
  - exact (H1 (PStr "secret1contract") (PStr "test") eq_refl eq_refl).
  - exact (H2 (PStr "secret1contract") (PStr "test") eq_refl eq_refl).
Defined.

Lemma init_spec_witness :
  (SNIP20.name (Demo.mainnet (PStr "demo")) = SNIP20.name (SNIP20.defaults (PStr "demo"))
   /\ SNIP20.seed (Demo.mainnet (PStr "demo")) = SNIP20.seed (SNIP20.defaults (PStr "demo")))
  /\ SNIP20.initMsg (Demo.mainnet (PStr "demo")) = SNIP20.initMsg (SNIP20.defaults (PStr "demo")).
Proof.
  split; [split; reflexivity | ].
  destruct (init_spec Demo.E (SNIP20.defaults (PStr "demo")) ∅ O) as (_ & _ & _ & Hsame).
  exact (Hsame (Demo.mainnet (PStr "demo"))
           eq_refl eq_refl eq_refl eq_refl eq_refl eq_refl eq_refl eq_refl eq_refl).
Defined.

(** ** The payload and the deployment parameters *)

(** Against C7 as the specification words it: two constructions that
    differ in the gas limit and in the backend target send the same
    initialisation payload, character for character. *)
Lemma init_payload_omits_gas_and_backend :
  SNIP20.gas (SNIP20.defaults (PStr "demo")) <> SNIP20.gas (Demo.mainnet (PStr "demo"))
  /\ SNIP20.backend (SNIP20.defaults (PStr "demo"))
     <> SNIP20.backend (Demo.mainnet (PStr "demo"))
  /\ SNIP20.initMsg (SNIP20.defaults (PStr "demo")) = SNIP20.initMsg (Demo.mainnet (PStr "demo")).
Proof.
  split; [discriminate | ]. split; [discriminate | reflexivity].
Qed.

Example default_payload_text :
  SNIP20.initMsg (SNIP20.defaults (PStr "demo"))
  = "{" +:+ q "name" +:+ ": " +:+ q "token" +:+ ", " +:+ q "symbol" +:+ ": " +:+ q "TKN"
    +:+ ", " +:+ q "decimals" +:+ ": 3, " +:+ q "prng_seed" +:+ ": " +:+ q "cGFzc3dvcmQ="
    +:+ ", " +:+ q "config" +:+ ": {" +:+ q "public_total_supply" +:+ ": false, "
    +:+ q "enable_deposit" +:+ ": false, " +:+ q "enable_redeem" +:+ ": false, "
    +:+ q "enable_mint" +:+ ": false, " +:+ q "enable_burn" +:+ ": false}}".
Proof. reflexivity. Qed.

(** * Further properties *)

(** ** The text of [json.dumps] determines the value *)

Lemma scan_escape_char (a : ascii) (rest : string) :
  scan_char (json.escape_char a +:+ rest) = Some (a, rest).
Proof.
  destruct a as [[] [] [] [] [] [] [] []]; reflexivity.
Qed.

Lemma append_String (c : ascii) (s r : string) : String c s +:+ r = String c (s +:+ r).
Proof. reflexivity. Qed.

Lemma append_Empty (r : string) : EmptyString +:+ r = r.
Proof. reflexivity. Qed.

Lemma append_assoc (a b c : string) : (a +:+ b) +:+ c = a +:+ (b +:+ c).
Proof.
  induction a as [ | x a IH]; [reflexivity | ].
  rewrite !append_String, IH. reflexivity.
Qed.

Lemma append_nil_r (a : string) : a +:+ EmptyString = a.
Proof.
  induction a as [ | x a IH]; [reflexivity | ].
  rewrite append_String, IH. reflexivity.
Qed.

Lemma escape_prefix (s s' r r' : string) :
  json.escape s +:+ String dquote r = json.escape s' +:+ String dquote r' ->
  s = s' /\ r = r'.
Proof.
  revert s'. induction s as [ | a s IH]; intros [ | a' s'] H; cbn [json.escape] in H.
  - rewrite !append_Empty in H. injection H as ->. split; reflexivity.
  - rewrite append_Empty, append_assoc in H.
    apply (f_equal scan_char) in H. rewrite scan_escape_char in H. discriminate H.
  - rewrite append_Empty, append_assoc in H.
    apply (f_equal scan_char) in H. rewrite scan_escape_char in H. discriminate H.
  - rewrite !append_assoc in H.
    apply (f_equal scan_char) in H. rewrite !scan_escape_char in H.
    injection H as -> H. destruct (IH s' H) as [-> ->]. split; reflexivity.
Qed.

Lemma uint_prefix (u u' : Decimal.uint) (r r' : string) :
  safe r -> safe r' ->
  NilEmpty.string_of_uint u +:+ r = NilEmpty.string_of_uint u' +:+ r' ->
  u = u' /\ r = r'.
Proof.
  intros Hr Hr'. revert u'.
  induction u as [ | u IH | u IH | u IH | u IH | u IH | u IH | u IH | u IH | u IH | u IH];
    intros u' H; destruct u'; cbn [NilEmpty.string_of_uint] in H;
    rewrite ?append_String, ?append_Empty in H;
    try (split; [reflexivity | exact H]);
    try (subst r; discriminate Hr);
    try (subst r'; discriminate Hr');
    try discriminate H;
    injection H as H; destruct (IH _ H) as [-> ->]; split; reflexivity.
Qed.

Lemma to_int_shape (z : Z) :
  exists u, u <> Decimal.Nil /\ (Z.to_int z = Decimal.Pos u \/ Z.to_int z = Decimal.Neg u).
Proof.
  destruct z as [ | p | p]; simpl.
  - exists (Decimal.D0 Decimal.Nil). split; [discriminate | left; reflexivity].
  - exists (Pos.to_uint p). split; [apply Unsigned.to_uint_nonnil | left; reflexivity].
  - exists (Pos.to_uint p). split; [apply Unsigned.to_uint_nonnil | right; reflexivity].
Qed.

Lemma string_of_uint_nonnil (u : Decimal.uint) :
  u <> Decimal.Nil ->
  NilZero.string_of_uint u = NilEmpty.string_of_uint u
  /\ exists c s, NilEmpty.string_of_uint u = String c s /\ is_digit c = true.
Proof.
  intros Hu. destruct u; try contradiction; (split; [reflexivity | ]);
    cbn [NilEmpty.string_of_uint]; eexists _, _; (split; [reflexivity | reflexivity]).
Qed.

Lemma int_repr_prefix (z z' : Z) (r r' : string) :
  safe r -> safe r' -> int_repr z +:+ r = int_repr z' +:+ r' -> z = z' /\ r = r'.
Proof.
  intros Hr Hr' H. unfold int_repr in H.
  destruct (to_int_shape z) as (u & Hu & Hz).
  destruct (to_int_shape z') as (u' & Hu' & Hz').
  destruct (string_of_uint_nonnil u Hu) as (Hs & c & s & Hc & Hd).
  destruct (string_of_uint_nonnil u' Hu') as (Hs' & c' & s' & Hc' & Hd').
  assert (Hsame : Z.to_int z = Z.to_int z' -> z = z').
  { intros Heq. rewrite <- (DecimalZ.of_to z), <- (DecimalZ.of_to z'), Heq. reflexivity. }
  destruct Hz as [Hz | Hz], Hz' as [Hz' | Hz']; rewrite Hz, Hz' in H;
    cbn [NilZero.string_of_int] in H; rewrite Hs, Hs' in H.
  - destruct (uint_prefix u u' r r' Hr Hr' H) as [-> ->].
    split; [apply Hsame; congruence | reflexivity].
  - rewrite Hc, !append_String in H. injection H as -> _. discriminate Hd.
  - rewrite Hc', !append_String in H. injection H as <- _. discriminate Hd'.
  - rewrite !append_String in H. injection H as H.
    destruct (uint_prefix u u' r r' Hr Hr' H) as [-> ->].
    split; [apply Hsame; congruence | reflexivity].
Qed.

Lemma is_digit_class (c : ascii) : is_digit c = true -> class c = 3%nat.
Proof.
  destruct c as [[] [] [] [] [] [] [] []]; intros H; try discriminate H; reflexivity.
Qed.

Lemma dumps_head (v : pyval) (r : string) :
  exists c s, json.dumps v +:+ r = String c s /\ class c = vclass v.
Proof.
  destruct v as [ | [] | z | s | l | d]; cbn [json.dumps];
    try (eexists _, _; split; reflexivity).
  unfold int_repr.
  destruct (to_int_shape z) as (u & Hu & [Hz | Hz]); rewrite Hz;
    cbn [NilZero.string_of_int].
  - destruct (string_of_uint_nonnil u Hu) as (-> & c & s & -> & Hd).
    rewrite append_String. eexists _, _. split; [reflexivity | ].
    apply is_digit_class, Hd.
  - rewrite append_String. eexists _, _. split; reflexivity.
Qed.

Lemma join_cons_app (sep p : string) (rest : list string) (X : string) :
  join sep (p :: rest) +:+ X =
  p +:+ match rest with nil => X | _ => sep +:+ join sep rest +:+ X end.
Proof.
  destruct rest; cbn [join]; [reflexivity | rewrite !append_assoc; reflexivity].
Qed.

Section Join.

Context {A : Type} (f : A -> string) (close : ascii).

Hypothesis close_not_comma : close <> ","%char.
Hypothesis head_f : forall a C r, f a +:+ C <> String close r.

Lemma join_prefix (l : list A) :
  Forall (elem_prefix f close) l ->
  forall l' X X', starts close X -> starts close X' ->
    join ", " (map f l) +:+ X = join ", " (map f l') +:+ X' ->
    l = l' /\ X = X'.
Proof.
  induction 1 as [ | a t Ha Ht IH]; intros [ | a' t'] X X' HX HX' H; cbn [map] in H.
  - split; [reflexivity | exact H].
  - rewrite join_cons_app in H. destruct HX as [r ->].
    symmetry in H. destruct (head_f _ _ _ H).
  - rewrite join_cons_app in H. destruct HX' as [r ->].
    destruct (head_f _ _ _ H).
  - rewrite !join_cons_app in H.
    apply Ha in H.
    + destruct H as [-> HC].
      destruct t as [ | b t], t' as [ | b' t']; cbn [map] in HC.
      * split; [reflexivity | exact HC].
      * destruct HX as [r ->]. rewrite !append_String in HC.
        injection HC as Hc _. contradiction.
      * destruct HX' as [r ->]. rewrite !append_String in HC.
        injection HC as Hc _. symmetry in Hc. contradiction.
      * rewrite !append_String, !append_Empty in HC. injection HC as HC.
        destruct (IH (b' :: t') X X' HX HX' HC) as [-> ->].
        split; reflexivity.
    + destruct t; cbn [map]; [right; exact HX | left; eexists; reflexivity].
    + destruct t'; cbn [map]; [right; exact HX' | left; eexists; reflexivity].
Qed.

End Join.

Lemma dumps_list (l : list pyval) :
  json.dumps (PList l) = "[" +:+ join ", " (map json.dumps l) +:+ "]".
Proof. reflexivity. Qed.

Lemma dumps_dict (d : list (string * pyval)) :
  json.dumps (PDict d) = "{" +:+ join ", " (map dumps_item d) +:+ "}".
Proof. reflexivity. Qed.

Lemma cont_safe (close : ascii) (C : string) :
  is_digit close = false -> cont close C -> safe C.
Proof. intros Hc [[r ->] | [r ->]]; [reflexivity | exact Hc]. Qed.

Lemma dumps_prefix (v : pyval) :
  forall v' r r', safe r -> safe r' ->
    json.dumps v +:+ r = json.dumps v' +:+ r' -> v = v' /\ r = r'.
Proof.
  induction v as [ | b | z | s | l IH | d IH] using pyval_nested_ind;
    intros v' r r' Hr Hr' H.
  all: match goal with
       | H : json.dumps ?V +:+ _ = _ |- _ =>
           assert (Hcls : vclass V = vclass v')
             by (destruct (dumps_head V r) as (c & t & Hc & Hk);
                 destruct (dumps_head v' r') as (c' & t' & Hc' & Hk');
                 rewrite Hc, Hc' in H; injection H as -> _; congruence)
       end.
  - destruct v' as [ | [] | z' | s' | l' | d']; try discriminate Hcls.
    apply String.app_inj in H. split; [reflexivity | exact H].
  - destruct b, v' as [ | [] | z' | s' | l' | d']; try discriminate Hcls;
      apply String.app_inj in H; (split; [reflexivity | exact H]).
  - destruct v' as [ | [] | z' | s' | l' | d']; try discriminate Hcls.
    cbn [json.dumps] in H.
    destruct (int_repr_prefix z z' r r' Hr Hr' H) as [-> ->]. split; reflexivity.
  - destruct v' as [ | [] | z' | s' | l' | d']; try discriminate Hcls.
    cbn [json.dumps] in H. unfold json.encode_basestring_ascii, chr in H.
    rewrite !append_String, !append_assoc, !append_String, !append_Empty in H.
    injection H as H. destruct (escape_prefix _ _ _ _ H) as [-> ->].
    split; reflexivity.
  - destruct v' as [ | [] | z' | s' | l' | d']; try discriminate Hcls.
    rewrite !dumps_list in H.
    rewrite !append_String, !append_Empty, !append_assoc, !append_String, !append_Empty in H.
    injection H as H.
    assert (Hl : l = l' /\ String "]" r = String "]" r').
    { apply (join_prefix json.dumps "]"); try (eexists; reflexivity); try exact H.
      - discriminate.
      - intros a C t Ha. destruct (dumps_head a C) as (c & u & Hc & Hk).
        rewrite Hc in Ha. injection Ha as -> _. destruct a as [ | [] | | | | ]; discriminate Hk.
      - eapply Forall_impl; [exact IH | ].
        intros a Ha a' C C' HC HC' Heq.
        apply Ha; [exact (cont_safe "]" C eq_refl HC) | exact (cont_safe "]" C' eq_refl HC') | exact Heq]. }
    destruct Hl as [-> Hr2]. injection Hr2 as ->. split; reflexivity.
  - destruct v' as [ | [] | z' | s' | l' | d']; try discriminate Hcls.
    rewrite !dumps_dict in H.
    rewrite !append_String, !append_Empty, !append_assoc, !append_String, !append_Empty in H.
    injection H as H.
    assert (Hd : d = d' /\ String "}" r = String "}" r').
    { apply (join_prefix dumps_item "}"); try (eexists; reflexivity); try exact H.
      - discriminate.
      - intros a C t Ha. unfold dumps_item, json.encode_basestring_ascii in Ha.
        rewrite !append_String in Ha. discriminate Ha.
      - eapply Forall_impl; [exact IH | ].
        intros [k x] Hx [k' x'] C C' HC HC' Heq. simpl in Hx.
        unfold dumps_item, json.encode_basestring_ascii, chr in Heq. cbn [fst snd] in Heq.
        rewrite !append_String, !append_assoc, !append_String, !append_Empty in Heq.
        injection Heq as Heq.
        destruct (escape_prefix _ _ _ _ Heq) as [-> Heq2].
        injection Heq2 as Heq2.
        destruct (Hx x' C C' (cont_safe "}" C eq_refl HC) (cont_safe "}" C' eq_refl HC') Heq2)
          as [-> ->].
        split; reflexivity. }
    destruct Hd as [-> Hr2]. injection Hr2 as ->. split; reflexivity.
Qed.

Lemma dumps_inj (v v' : pyval) : json.dumps v = json.dumps v' -> v = v'.
Proof.
  intros H.
  destruct (dumps_prefix v v' EmptyString EmptyString I I) as [Hv _];
    [rewrite !append_nil_r; exact H | exact Hv].
Qed.


(** ** The text of [json.dumps] is plain ASCII *)

Lemma plain_app (a b : string) : plain (a +:+ b) = plain a && plain b.
Proof.
  induction a as [ | c a IH]; [reflexivity | ].
  rewrite append_String. cbn [plain]. rewrite IH, andb_assoc. reflexivity.
Qed.

Lemma plain_escape_char (a : ascii) : plain (json.escape_char a) = true.
Proof. destruct a as [[] [] [] [] [] [] [] []]; reflexivity. Qed.

Lemma plain_escape (s : string) : plain (json.escape s) = true.
Proof.
  induction s as [ | a s IH]; [reflexivity | ].
  cbn [json.escape]. rewrite plain_app, plain_escape_char, IH. reflexivity.
Qed.

Lemma plain_encode_basestring_ascii (s : string) :
  plain (json.encode_basestring_ascii s) = true.
Proof.
  unfold json.encode_basestring_ascii. cbn [plain].
  rewrite plain_app, plain_escape. reflexivity.
Qed.

Lemma plain_uint (u : Decimal.uint) : plain (NilEmpty.string_of_uint u) = true.
Proof. induction u; cbn [NilEmpty.string_of_uint plain]; try rewrite IHu; reflexivity. Qed.

Lemma plain_int_repr (z : Z) : plain (int_repr z) = true.
Proof.
  unfold int_repr.
  destruct (to_int_shape z) as (u & Hu & [Hz | Hz]); rewrite Hz;
    cbn [NilZero.string_of_int];
    destruct (string_of_uint_nonnil u Hu) as (-> & _);
    cbn [plain]; rewrite plain_uint; reflexivity.
Qed.

Lemma plain_join (sep : string) (parts : list string) :
  plain sep = true -> Forall (fun p => plain p = true) parts -> plain (join sep parts) = true.
Proof.
  intros Hsep. induction 1 as [ | p rest Hp Hrest IH]; [reflexivity | ].
  destruct rest as [ | p' rest]; cbn [join]; [exact Hp | ].
  rewrite !plain_app, Hp, Hsep. exact IH.
Qed.

Lemma plain_dumps (v : pyval) : plain (json.dumps v) = true.
Proof.
  induction v as [ | b | z | s | l IH | d IH] using pyval_nested_ind.
  - reflexivity.
  - destruct b; reflexivity.
  - apply plain_int_repr.
  - apply plain_encode_basestring_ascii.
  - rewrite dumps_list, !plain_app, plain_join; [reflexivity | reflexivity | ].
    apply Forall_map. exact IH.
  - rewrite dumps_dict, !plain_app, plain_join; [reflexivity | reflexivity | ].
    apply Forall_map. eapply Forall_impl; [exact IH | ].
    intros [k x] Hx. unfold dumps_item. cbn [fst snd] in *.
    rewrite !plain_app, plain_encode_basestring_ascii, Hx. reflexivity.
Qed.

(** ** The requests of the methods *)

Section Requests.

Context {World : Type} (E : env World).

Lemma run_set_minters (accounts : pyval) (o : object) (w : World)
  (address admin backend : pyval) :
  o !! "address" = Some address ->
  o !! "admin" = Some admin ->
  o !! "backend" = Some backend ->
  let request :=
    secretlib.execute_contract address
      (PStr (json.dumps (PDict (("set_minters", PDict (("minters", accounts) :: nil)) :: nil))))
      admin backend None in
  run E (SNIP20.set_minters accounts) o w =
  {| result := (secretlib_handler E request w).1; self := o;
     world := (secretlib_handler E request w).2; trace := request :: nil |}.
Proof.
  intros Ha Had Hb request. unfold SNIP20.set_minters. enter. apply run_forward.
Qed.

Lemma run_deposit (account amount : pyval) (o : object) (w : World)
  (address backend : pyval) :
  o !! "address" = Some address ->
  o !! "backend" = Some backend ->
  let request :=
    secretlib.execute_contract address
      (PStr (json.dumps (PDict (("deposit", PDict nil) :: nil))))
      account backend (Some amount) in
  run E (SNIP20.deposit account amount) o w =
  {| result := (secretlib_handler E request w).1; self := o;
     world := (secretlib_handler E request w).2; trace := request :: nil |}.
Proof.
  intros Ha Hb request. unfold SNIP20.deposit. enter. apply run_forward.
Qed.

Lemma run_mint (recipient amount : pyval) (o : object) (w : World)
  (address admin backend : pyval) :
  o !! "address" = Some address ->
  o !! "admin" = Some admin ->
  o !! "backend" = Some backend ->
  let request :=
    secretlib.execute_contract address
      (PStr (json.dumps
               (PDict (("mint",
                        PDict (("recipient", recipient) :: ("amount", PStr (str amount)) :: nil))
                       :: nil))))
      admin backend None in
  run E (SNIP20.mint recipient amount) o w =
  {| result := (secretlib_handler E request w).1; self := o;
     world := (secretlib_handler E request w).2; trace := request :: nil |}.
Proof.
  intros Ha Had Hb request. unfold SNIP20.mint. enter. apply run_forward.
Qed.

Lemma run_send (account recipient amount : pyval) (o : object) (w : World)
  (address backend : pyval) :
  o !! "address" = Some address ->
  o !! "backend" = Some backend ->
  let request :=
    secretlib.execute_contract address
      (PStr (json.dumps
               (PDict (("send",
                        PDict (("recipient", recipient) :: ("amount", PStr (str amount)) :: nil))
                       :: nil))))
      account backend None in
  run E (SNIP20.send account recipient amount) o w =
  {| result := (secretlib_handler E request w).1; self := o;
     world := (secretlib_handler E request w).2; trace := request :: nil |}.
Proof.
  intros Ha Hb request. unfold SNIP20.send. enter. apply run_forward.
Qed.

End Requests.

(** Bring the run of a method to its closed form: the equation of the
    method when the attributes it reads are at hand, the
    [AttributeError] of the first one that is not. *)
Ltac settle :=
  cbn [SNIP20.invoke];
  repeat (erewrite run_set_minters by eassumption);
  repeat (erewrite run_deposit by eassumption);
  repeat (erewrite run_mint by eassumption);
  repeat (erewrite run_send by eassumption);
  repeat (erewrite run_set_view_key by eassumption);
  repeat (erewrite run_get_balance by eassumption);
  unfold SNIP20.set_minters, SNIP20.deposit, SNIP20.mint, SNIP20.send,
    SNIP20.set_view_key, SNIP20.get_balance;
  unfold mbind, prog_bind; cbv zeta;
  repeat first [ erewrite run_getattr by eassumption
               | rewrite run_getattr_missing by eassumption ];
  cbn [result self world trace].

Section Attributes.

Context {World : Type} (E : env World).

(** X10. A method called on an instance that lacks an attribute it reads
    raises the [AttributeError] of the first such attribute, in the
    order of its call expression, before anything is sent: no request is
    made and the world and the instance are as they were. *)
Theorem missing_attribute (m : SNIP20.method) (o : object) (w : World) (n : string) :
  first_missing o (reads m) = Some n ->
  run E (SNIP20.invoke m) o w =
  {| result := Err (AttributeError n); self := o; world := w; trace := nil |}.
Proof.
  intros H. destruct m; cbn [reads first_missing] in H;
    repeat match type of H with
           | context [?o' !! ?a] => destruct (o' !! a) eqn:?
           end;
    try discriminate H; injection H as <-; settle; reflexivity.
Qed.

(** X11. A method depends on the instance through the attributes it
    reads only: [set_minters] and [mint] read [address], [admin] and
    [backend]; [deposit], [send] and [set_view_key] read [address] and
    [backend] and never the administrator; [get_balance] reads
    [address] alone.  Two instances that agree on these give the same
    result, the same requests and the same world. *)
Theorem reads_suffice (m : SNIP20.method) (o o' : object) (w : World) :
  (forall n, In n (reads m) -> o' !! n = o !! n) ->
  let f := run E (SNIP20.invoke m) o w in
  let f' := run E (SNIP20.invoke m) o' w in
  result f' = result f /\ world f' = world f /\ trace f' = trace f.
Proof.
  intros H f f'. subst f f'.
  destruct m; cbn [reads] in H;
    repeat match goal with
           | H : forall n, In n (?a :: ?rest) -> _ |- _ =>
               let Ha := fresh "Ha" in
               pose proof (H a (or_introl eq_refl)) as Ha;
               assert (forall n, In n rest -> o' !! n = o !! n)
                 by (intros ? ?; apply H; right; assumption);
               clear H
           end;
    repeat match goal with
           | Ha : o' !! ?a = o !! ?a |- _ => destruct (o !! a) eqn:?
           end;
    settle; repeat split; reflexivity.
Qed.

End Attributes.

(** ** Scripts *)

Section Scripts.

Context {World : Type} (E : env World).

(** One method on a deployed instance: one request, in the envelope of
    its operation and addressed to the contract; the instance is as it
    was and the world is what the backend made of it. *)
Lemma invoke_deployed (m : SNIP20.method) (o : object) (w : World)
  (address admin backend : pyval) :
  o !! "address" = Some address ->
  o !! "admin" = Some admin ->
  o !! "backend" = Some backend ->
  exists c,
    trace (run E (SNIP20.invoke m) o w) = c :: nil
    /\ envelope (SNIP20.operation m) c
    /\ contract_of c = address
    /\ self (run E (SNIP20.invoke m) o w) = o
    /\ world (run E (SNIP20.invoke m) o w) = (secretlib_handler E c w).2.
Proof.
  intros Ha Had Hb. destruct m; settle;
    (eexists; split; [reflexivity | ]; split; [eexists; reflexivity | ];
     repeat split; reflexivity).
Qed.

(** X12. A script of method calls on a deployed instance makes exactly
    one request per call, in the order of the calls, each in the
    envelope of the operation of its call and each addressed to the
    contract's own address, whatever the earlier calls returned or
    raised; the world at the end is the one the backend reaches by
    serving these requests one after the other. *)
Theorem script_requests (ms : list SNIP20.method) (o : object) (w : World)
  (address admin backend : pyval) :
  o !! "address" = Some address ->
  o !! "admin" = Some admin ->
  o !! "backend" = Some backend ->
  let cs := requests_of E ms o w in
  length cs = length ms
  /\ Forall2 (fun m c => envelope (SNIP20.operation m) c /\ contract_of c = address) ms cs
  /\ (run_all E ms o w).2 = replay E cs w.
Proof.
  intros Ha Had Hb. revert w.
  induction ms as [ | m ms IH]; intros w cs; subst cs; cbn [requests_of run_all].
  - repeat split. constructor.
  - destruct (invoke_deployed m o w address admin backend Ha Had Hb)
      as (c & -> & Henv & Hto & -> & ->).
    destruct (IH (secretlib_handler E c w).2) as (Hlen & Hall & Hworld).
    cbn [app length]. split; [rewrite Hlen; reflexivity | ].
    split; [constructor; [split; assumption | exact Hall] | ].
    rewrite Hworld. reflexivity.
Qed.

End Scripts.

(** ** The message determines the call *)

Lemma single_message (s s' : string) : PStr s :: nil = PStr s' :: nil -> s = s'.
Proof. intros H. congruence. Qed.

Section Messages.

Context {World : Type} (E : env World).

(** X2. Whatever the arguments hold, the message of every request of
    every method, and the initialisation payload of the constructor,
    is text of the characters from space to tilde only: everything else
    leaves as a backslash escape. *)
Theorem messages_plain (m : SNIP20.method) (o : object) (w : World) (p : SNIP20.params) :
  Forall (fun v => exists s, v = PStr s /\ plain s = true) (messages E (SNIP20.invoke m) o w)
  /\ plain (SNIP20.initMsg p) = true.
Proof.
  split; [ | apply plain_dumps].
  unfold messages. apply Forall_map.
  eapply Forall_impl; [apply invoke_trace_any | ].
  intros c [parameters Hc]. eexists. split; [exact Hc | apply plain_dumps].
Qed.

(** X8. No two operations share a message: when two method calls on
    deployed instances send the same text, they are calls of the same
    contract operation. *)
Theorem messages_operation (m m' : SNIP20.method) (o o' : object) (w w' : World) :
  deployed o -> deployed o' ->
  messages E (SNIP20.invoke m) o w = messages E (SNIP20.invoke m') o' w' ->
  SNIP20.operation m = SNIP20.operation m'.
Proof.
  intros ([a Ha] & [ad Had] & [b Hb]) ([a' Ha'] & [ad' Had'] & [b' Hb']) H.
  unfold messages in H.
  destruct (invoke_deployed E m o w a ad b Ha Had Hb) as (c & Hc & [ps Hps] & _).
  destruct (invoke_deployed E m' o' w' a' ad' b' Ha' Had' Hb') as (c' & Hc' & [ps' Hps'] & _).
  rewrite Hc, Hc' in H. cbn [map] in H. rewrite Hps, Hps' in H.
  apply single_message, dumps_inj in H. injection H as H _. exact H.
Qed.






End Messages.


(** ** The further properties at work in the test environment *)

Lemma demo_deployed : deployed Demo.token.
Proof. repeat split; eexists; reflexivity. Defined.


Lemma missing_attribute_witness :
  let m := SNIP20.call_mint (PStr "secret1bob") (PInt 100) in
  let o : object := <["address" := PStr "secret1contract"]> ∅ in
  first_missing o (reads m) = Some "admin"
  /\ run Demo.E (SNIP20.invoke m) o O
     = {| result := Err (AttributeError "admin"); self := o; world := O; trace := nil |}.
Proof.
  intros m o. split; [reflexivity | ].
  exact (missing_attribute Demo.E m o O "admin" eq_refl).
Defined.

Lemma demo_without_admin (n : string) :
  In n (reads (SNIP20.call_get_balance (PStr "secret1bob") (PStr "api_key_1"))) ->
  delete "admin" Demo.token !! n = Demo.token !! n.
Proof.
  intros [<- | []]. reflexivity.
Defined.

Lemma reads_suffice_witness :
  let m := SNIP20.call_get_balance (PStr "secret1bob") (PStr "api_key_1") in
  (forall n, In n (reads m) -> delete "admin" Demo.token !! n = Demo.token !! n)
  /\ result (run Demo.E (SNIP20.invoke m) (delete "admin" Demo.token) O)
     = result (run Demo.E (SNIP20.invoke m) Demo.token O).
Proof.
  intros m. split; [exact demo_without_admin | ].
  exact (proj1 (reads_suffice Demo.E m Demo.token (delete "admin" Demo.token) O
                  demo_without_admin)).
Defined.

Lemma script_requests_witness :
  let ms :=
    SNIP20.call_set_view_key (PStr "alice") (PStr "c2VlZA==")
    :: SNIP20.call_mint (PStr "alice") (PInt 100)
    :: SNIP20.call_get_balance (PStr "alice") (PStr "api_key_1") :: nil in
  (Demo.token !! "address" = Some (PStr "secret1contract")
   /\ Demo.token !! "admin" = Some (PStr "a")
   /\ Demo.token !! "backend" = Some (PStr "test"))
  /\ length (requests_of Demo.E ms Demo.token O) = 3%nat
  /\ (run_all Demo.E ms Demo.token O).2 = replay Demo.E (requests_of Demo.E ms Demo.token O) O.
Proof.
  intros ms. split; [repeat split | ].
  destruct (script_requests Demo.E ms Demo.token O (PStr "secret1contract") (PStr "a")
              (PStr "test") eq_refl eq_refl eq_refl)
    as (Hlen & _ & Hworld).
  split; [exact Hlen | exact Hworld].
Defined.

Lemma messages_operation_witness :
  let m := SNIP20.call_mint (PStr "secret1bob") (PInt 5) in
  let m' := SNIP20.call_mint (PStr "secret1bob") (PStr "5") in
  (deployed Demo.token
   /\ messages Demo.E (SNIP20.invoke m) Demo.token O
      = messages Demo.E (SNIP20.invoke m') Demo.token (S O))
  /\ SNIP20.operation m = SNIP20.operation m'.
Proof.
  intros m m'. split; [split; [exact demo_deployed | reflexivity] | ].
  exact (messages_operation Demo.E m m' Demo.token Demo.token O (S O)
           demo_deployed demo_deployed eq_refl).
Defined.






